(** * Supertonic TTS serverless handler: a shallow embedding of [handler.py]

    The module [handler.py] keeps two process-wide caches (the engine handle
    [tts_model] and the dictionary [voice_styles]), loads them lazily from the
    file system, validates a job, calls the external synthesis engine, trims
    the waveform and packages a response.

    The embedding follows the source function by function.  The external
    collaborators ([os.path.exists], [os.listdir], [load_text_to_speech],
    [load_voice_style], the engine call and [soundfile.write]) are the fields
    of an environment record; the two globals are an explicit cache state;
    exceptions are an error monad; calls to the collaborators are recorded in
    a trace so that "is not called" can be stated. *)

From Stdlib Require Import ZArith String Ascii Strings.Byte List Lia.
From Stdlib Require Import Floats.SpecFloat.
From stdpp Require Import gmap strings list.

Local Open Scope string_scope.
Local Open Scope Z_scope.

(** ** Python strings *)

Module PyStr.

(** [s.endswith(suffix)]: [suffix] is [s] itself or ends the tail of [s]. *)
Fixpoint endswith (s suffix : string) : bool :=
  String.eqb s suffix ||
  match s with
  | EmptyString => false
  | String _ s' => endswith s' suffix
  end.

(** [s.replace(old, new)]: every non-overlapping occurrence of [old], found
    from left to right, is replaced.  [skip] counts the characters of a
    matched occurrence that remain to be dropped. *)
Fixpoint replace_go (old new : string) (skip : nat) (s : string) : string :=
  match s with
  | EmptyString =>
      match skip, old with
      | O, EmptyString => new
      | _, _ => EmptyString
      end
  | String c s' =>
      match skip with
      | S k => replace_go old new k s'
      | O =>
          if String.prefix old s then
            match String.length old with
            | O => new ++ String c (replace_go old new 0 s')
            | S k => new ++ replace_go old new k s'
            end
          else String c (replace_go old new 0 s')
      end
  end.

Definition replace (old new s : string) : string := replace_go old new 0 s.

Definition hex_digit (n : N) : ascii :=
  match String.get (N.to_nat n) "0123456789abcdef" with
  | Some c => c
  | None => "0"%char
  end.

(** One character of [repr(s)], for the quote character [q] chosen for the
    whole string.  Strings are byte strings; bytes from 0x80 on are parts of
    UTF-8 encoded printable characters and are kept. *)
Definition repr_char (q : ascii) (c : ascii) : string :=
  let n := N_of_ascii c in
  if Ascii.eqb c q then String "\" (String q EmptyString)
  else if Ascii.eqb c "\" then "\\"
  else if (n =? 9)%N then "\t"
  else if (n =? 10)%N then "\n"
  else if (n =? 13)%N then "\r"
  else if ((n <? 32) || (n =? 127))%N then
    String "\" (String "x" (String (hex_digit (n / 16)) (String (hex_digit (n mod 16)) EmptyString)))
  else String c EmptyString.

Fixpoint contains_char (c : ascii) (s : string) : bool :=
  match s with
  | EmptyString => false
  | String d s' => Ascii.eqb c d || contains_char c s'
  end.

Fixpoint repr_body (q : ascii) (s : string) : string :=
  match s with
  | EmptyString => EmptyString
  | String c s' => repr_char q c ++ repr_body q s'
  end.

Definition squote : ascii := "'"%char.
Definition dquote : ascii := ascii_of_nat 34.

(** [repr(s)] for a [str]: double quotes are used only when the string holds
    a single quote and no double quote. *)
Definition repr (s : string) : string :=
  let q := if contains_char squote s && negb (contains_char dquote s)
           then dquote else squote in
  String q (repr_body q s ++ String q EmptyString).

Fixpoint join (sep : string) (l : list string) : string :=
  match l with
  | [] => EmptyString
  | [x] => x
  | x :: l' => x ++ sep ++ join sep l'
  end.

(** [repr] of a list of [str], as an f-string formats a list. *)
Definition repr_list (l : list string) : string :=
  "[" ++ join ", " (map repr l) ++ "]".

End PyStr.

(** ** [os.path.join] on POSIX *)

Definition os_path_join (a b : string) : string :=
  if String.prefix "/" b then b
  else if String.eqb a "" || PyStr.endswith a "/" then a ++ b
  else a ++ "/" ++ b.

(** ** [base64.b64encode] *)

Module Base64.

Definition alphabet : string :=
  "ABCDEFGHIJKLMNOPQRSTUVWXYZabcdefghijklmnopqrstuvwxyz0123456789+/".

Definition sextet (n : N) : ascii :=
  match String.get (N.to_nat n) alphabet with
  | Some c => c
  | None => "="%char
  end.

Fixpoint b64encode (l : list byte) : string :=
  match l with
  | [] => EmptyString
  | [a] =>
      let x := Byte.to_N a in
      String (sextet (x / 4)) (String (sextet ((x mod 4) * 16)) "==")
  | [a; b] =>
      let x := Byte.to_N a in
      let y := Byte.to_N b in
      String (sextet (x / 4))
        (String (sextet ((x mod 4) * 16 + y / 16))
           (String (sextet ((y mod 16) * 4)) "="))
  | a :: b :: c :: r =>
      let x := Byte.to_N a in
      let y := Byte.to_N b in
      let z := Byte.to_N c in
      String (sextet (x / 4))
        (String (sextet ((x mod 4) * 16 + y / 16))
           (String (sextet ((y mod 16) * 4 + z / 64))
              (String (sextet (z mod 64)) (b64encode r))))
  end.

End Base64.

(** ** Exceptions *)

(** The classes the [except] clauses and the interpreter distinguish; every
    other [Exception] subclass a collaborator may raise is [OtherException]. *)
Inductive exn_class :=
| FileNotFoundError
| IndexError
| ValueError
| OverflowError
| AttributeError
| KeyError
| OtherException (name : string).

(** An exception object: its class and [str(e)]. *)
Record exn := Exn { exn_cls : exn_class; exn_str : string }.

(** ** Python floats (IEEE 754 binary64) and the conversions the handler uses *)

Module PyFloat.

Definition prec : Z := 53.
Definition emax : Z := 1024.

Abbreviation float := spec_float.

(** [float(n)] for a Python [int]: correctly rounded. *)
Definition of_int (n : Z) : float := binary_normalize prec emax n 0 false.

Definition mul (x y : float) : float := SFmul prec emax x y.

Definition is_infinity (x : float) : bool :=
  match x with S754_infinity _ => true | _ => false end.

(** The integer part of a finite float, rounding toward zero:
    the value is [(-1)^s * m * 2^e]. *)
Definition trunc_finite (s : bool) (m : positive) (e : Z) : Z :=
  let v := if 0 <=? e then Z.shiftl (Z.pos m) e else Z.shiftr (Z.pos m) (- e) in
  if s then - v else v.

(** Python's [round(x)] on a finite float: to the nearest integer, ties to
    the even one. *)
Definition round_finite (s : bool) (m : positive) (e : Z) : Z :=
  let v :=
    if 0 <=? e then Z.shiftl (Z.pos m) e
    else
      let k := - e in
      let q := Z.shiftr (Z.pos m) k in
      let r := Z.pos m - Z.shiftl q k in
      let half := Z.shiftl 1 (k - 1) in
      if r <? half then q
      else if half <? r then q + 1
      else if Z.even q then q else q + 1 in
  if s then - v else v.

(** [n * x] for an [int] and a [float]: the [int] is converted first. *)
Definition int_mul (n : Z) (x : float) : exn + float :=
  let f := of_int n in
  if is_infinity f
  then inl (Exn OverflowError "int too large to convert to float")
  else inr (mul f x).

(** [int(x)]: truncation toward zero. *)
Definition to_int (x : float) : exn + Z :=
  match x with
  | S754_nan => inl (Exn ValueError "cannot convert float NaN to integer")
  | S754_infinity _ => inl (Exn OverflowError "cannot convert float infinity to integer")
  | S754_zero _ => inr 0
  | S754_finite s m e => inr (trunc_finite s m e)
  end.

(** [round(x)], the rounding the specification names. *)
Definition round (x : float) : exn + Z :=
  match x with
  | S754_nan => inl (Exn ValueError "cannot convert float NaN to integer")
  | S754_infinity _ => inl (Exn OverflowError "cannot convert float infinity to integer")
  | S754_zero _ => inr 0
  | S754_finite s m e => inr (round_finite s m e)
  end.

End PyFloat.

(** ** The cache state and the effect monad *)

Inductive number :=
| NInt (z : Z)
| NFloat (f : PyFloat.float).

Abbreviation sample := PyFloat.float (only parsing).

(** The engine handle returned by [load_text_to_speech]; [tts_id] stands for
    the identity of the Python object. *)
Record TTS := { tts_id : positive; sample_rate : Z }.

(** The opaque style object returned by [load_voice_style]. *)
Record Style := { style_id : positive }.

(** The external collaborators, as one call of the handler sees them. *)
Record Env := {
  path_exists : string -> bool;                       (* os.path.exists *)
  listdir : string -> exn + list string;              (* os.listdir *)
  load_text_to_speech : string -> bool -> exn + TTS;  (* helper.load_text_to_speech *)
  load_voice_style : list string -> exn + Style;      (* helper.load_voice_style *)
  synthesize : TTS -> string -> string -> Style -> Z -> number ->
               exn + (list (list sample) * list PyFloat.float);  (* model(...) *)
  sf_write : list sample -> Z -> exn + list byte      (* sf.write(buffer, ..., format='WAV') *)
}.

(** The module globals [tts_model] and [voice_styles]. *)
Record Cache := {
  tts_model : option TTS;
  voice_styles : gmap string Style
}.

Definition initial_cache : Cache := {| tts_model := None; voice_styles := ∅ |}.

(** Calls that leave the process. *)
Inductive event :=
| EvExists (path : string)
| EvListdir (dir : string)
| EvLoadModel (dir : string) (use_gpu : bool)
| EvLoadStyle (paths : list string)
| EvSynthesize (model : TTS) (text language : string) (style : Style)
               (total_step : Z) (speed : number)
| EvWrite (data : list sample) (rate : Z).

(** A computation reads and writes the cache, logs the external calls it
    makes, and ends with a value or a raised exception.  The cache written
    before an exception is raised is kept, as in Python. *)
Definition M (A : Type) : Type := Cache -> (exn + A) * Cache * list event.

Definition ret {A} (a : A) : M A := fun c => (inr a, c, []).

Definition raise {A} (e : exn) : M A := fun c => (inl e, c, []).

Definition bind {A B} (m : M A) (k : A -> M B) : M B :=
  fun c =>
    match m c with
    | (inl e, c1, t1) => (inl e, c1, t1)
    | (inr a, c1, t1) =>
        match k a c1 with
        | (r, c2, t2) => (r, c2, (t1 ++ t2)%list)
        end
    end.

Definition get_cache : M Cache := fun c => (inr c, c, []).

Definition set_tts_model (m : TTS) : M unit :=
  fun c => (inr tt, {| tts_model := Some m; voice_styles := voice_styles c |}, []).

Definition set_voice_style (k : string) (s : Style) : M unit :=
  fun c => (inr tt, {| tts_model := tts_model c; voice_styles := <[k := s]> (voice_styles c) |}, []).

(** A pure computation that may raise. *)
Definition lift {A} (r : exn + A) : M A := fun c => (r, c, []).

(** An external call: logged, then its result or exception. *)
Definition call {A} (ev : event) (r : exn + A) : M A :=
  fun c => (r, c, [ev]).

(** [try: m  except Exception as e: h e] *)
Definition try_catch {A} (m : M A) (h : exn -> M A) : M A :=
  fun c =>
    match m c with
    | (inl e, c1, t1) =>
        match h e c1 with
        | (r, c2, t2) => (r, c2, (t1 ++ t2)%list)
        end
    | (inr a, c1, t1) => (inr a, c1, t1)
    end.

Declare Scope py_scope.
Delimit Scope py_scope with py.
Notation "'let!' x ':=' c1 'in' c2" := (bind c1 (fun x => c2))
  (at level 10, x name, c1 at level 100, c2 at level 200) : py_scope.
Notation "'let!' '(' x ',' y ')' ':=' c1 'in' c2" :=
  (bind c1 (fun p => match p with (x, y) => c2 end))
  (at level 10, x name, y name, c1 at level 100, c2 at level 200) : py_scope.
Notation "'do!' c1 'in' c2" := (bind c1 (fun _ => c2))
  (at level 10, c1 at level 100, c2 at level 200) : py_scope.
Local Open Scope py_scope.

(** The three components of a run. *)
Definition outcome {A} (r : (exn + A) * Cache * list event) : exn + A := r.1.1.
Definition cache_after {A} (r : (exn + A) * Cache * list event) : Cache := r.1.2.
Definition trace {A} (r : (exn + A) * Cache * list event) : list event := r.2.

(** ** The program *)

Definition ONNX_DIR : string := "assets/onnx".
Definition VOICE_STYLES_DIR : string := "assets/voice_styles".

Definition os_path_exists (env : Env) (path : string) : M bool :=
  call (EvExists path) (inr (path_exists env path)).

Definition os_listdir (env : Env) (dir : string) : M (list string) :=
  call (EvListdir dir) (listdir env dir).

Definition required_files : list string :=
  [ "duration_predictor.onnx";
    "text_encoder.onnx";
    "vector_estimator.onnx";
    "vocoder.onnx";
    "tts.json";
    "unicode_indexer.json" ].

(** The loop of [load_model] that collects [missing_files], in order. *)
Fixpoint collect_missing (env : Env) (files : list string) : M (list string) :=
  match files with
  | [] => ret []
  | f :: files' =>
      let! present := os_path_exists env (os_path_join ONNX_DIR f) in
      let! rest := collect_missing env files' in
      ret (if present then rest else f :: rest)
  end.

(** [load_model]; its two [print] calls only write to the standard output
    and are left out.  The final [return tts_model] reads the global just
    assigned. *)
Definition load_model (env : Env) : M TTS :=
  let! c := get_cache in
  match tts_model c with
  | Some m => ret m
  | None =>
      let! missing_files := collect_missing env required_files in
      match missing_files with
      | _ :: _ =>
          raise (Exn FileNotFoundError
                   ("Missing required model files: " ++ PyStr.repr_list missing_files))
      | [] =>
          let! m := call (EvLoadModel ONNX_DIR false) (load_text_to_speech env ONNX_DIR false) in
          do! set_tts_model m in
          ret m
      end
  end.

(** The comprehension that builds [available] from a directory listing. *)
Definition available_voices (listing : list string) : list string :=
  map (PyStr.replace ".json" "")
      (List.filter (fun f => PyStr.endswith f ".json") listing).

(** [get_voice_style], without its [print]; the final
    [return voice_styles[voice_name]] is the dictionary lookup. *)
Definition get_voice_style (env : Env) (voice_name : string) : M Style :=
  let! c := get_cache in
  do! match voice_styles c !! voice_name with
  | Some _ => ret tt
  | None =>
      let voice_path := os_path_join VOICE_STYLES_DIR (voice_name ++ ".json") in
      let! present := os_path_exists env voice_path in
      do! (if present then ret tt
       else
         let! listing := os_listdir env VOICE_STYLES_DIR in
         raise (Exn FileNotFoundError
                  ("Voice style '" ++ voice_name ++ "' not found. Available: "
                   ++ PyStr.repr_list (available_voices listing)))) in
      let! s := call (EvLoadStyle [voice_path]) (load_voice_style env [voice_path]) in
      set_voice_style voice_name s
  end in
  let! c' := get_cache in
  match voice_styles c' !! voice_name with
  | Some s => ret s
  | None => raise (Exn KeyError (PyStr.repr voice_name))
  end.

(** *** The job and the response *)

(** [job["input"]]: a JSON object whose fields have the types the handler's
    docstring gives them; a field that is absent is [None]. *)
Record JobInput := {
  text : option string;
  language : option string;
  voice : option string;
  speed : option number;
  total_step : option Z
}.

(** The literal [{}]. *)
Definition empty_input : JobInput :=
  {| text := None; language := None; voice := None; speed := None; total_step := None |}.

(** A value stored in the job dictionary: the runtime's string fields (such
    as ["id"]) or an object. *)
Inductive JobValue :=
| JString (s : string)
| JObject (o : JobInput).

Inductive Result :=
| Success (audio : string) (duration : PyFloat.float) (rate : Z)
| Error (msg : string).

(** The float literal [1.05]: the binary64 number nearest to 105/100. *)
Definition float_1_05 : PyFloat.float := S754_finite false 4728779608739021 (-52).

Definition default_text : string := "Hello, this is a test.".
Definition default_language : string := "en".
Definition default_voice : string := "M1".
Definition default_speed : number := NFloat float_1_05.
Definition default_total_step : Z := 5.

Definition available_langs : list string := ["en"; "ko"; "es"; "pt"; "fr"].

(** [x in l] for a list of strings. *)
Definition str_in (x : string) (l : list string) : bool :=
  existsb (String.eqb x) l.

(** [job.get("input", {})], followed by the first [job_input.get]: a value
    that is not an object has no [get]. *)
Definition job_get_input (job : gmap string JobValue) : M JobInput :=
  match job !! "input" with
  | None => ret empty_input
  | Some (JObject o) => ret o
  | Some (JString _) =>
      raise (Exn AttributeError "'str' object has no attribute 'get'")
  end.

(** [duration[0].item()] *)
Definition first_item (duration : list PyFloat.float) : M PyFloat.float :=
  match duration with
  | d :: _ => ret d
  | [] => raise (Exn IndexError "index 0 is out of bounds for axis 0 with size 0")
  end.

(** [model.sample_rate * duration[0].item()] and [int(...)], in the monad. *)
Definition int_mul_float (n : Z) (x : PyFloat.float) : M PyFloat.float :=
  lift (PyFloat.int_mul n x).

Definition py_int (x : PyFloat.float) : M Z := lift (PyFloat.to_int x).

(** [row[:n]]: a negative [n] counts from the end, and the result is clipped
    to the row. *)
Definition slice_to {A} (n : Z) (row : list A) : list A :=
  let len := Z.of_nat (length row) in
  let stop := if n <? 0 then Z.max 0 (len + n) else Z.min n len in
  firstn (Z.to_nat stop) row.

(** [wav[0, :n]] for an array of shape (rows, samples). *)
Definition row0_slice_to (wav : list (list sample)) (n : Z) : M (list sample) :=
  match wav with
  | row :: _ => ret (slice_to n row)
  | [] => raise (Exn IndexError "index 0 is out of bounds for axis 0 with size 0")
  end.

(** The body of the [try] block.  The [print] calls only write to the
    standard output and are left out; [text[:50]] in the first of them is
    total on strings.  [float(duration[0].item())] is [d] again. *)
Definition synthesize_job (env : Env) (text language voice : string)
    (speed : number) (total_step : Z) : M Result :=
  let! model := load_model env in
  let! style := get_voice_style env voice in
  let! (wav, duration) :=
    call (EvSynthesize model text language style total_step speed)
         (synthesize env model text language style total_step speed) in
  let! d := first_item duration in
  let! product := int_mul_float (sample_rate model) d in
  let! n := py_int product in
  let! wav_trimmed := row0_slice_to wav n in
  let! buffer :=
    call (EvWrite wav_trimmed (sample_rate model))
         (sf_write env wav_trimmed (sample_rate model)) in
  let audio_base64 := Base64.b64encode buffer in
  ret (Success audio_base64 d (sample_rate model)).

Definition invalid_language_message (language : string) : string :=
  "Invalid language '" ++ language ++ "'. Available: " ++ PyStr.repr_list available_langs.

(** Both [except] clauses return [{"error": str(e)}] (the second one prints
    first), so one handler stands for the two. *)
Definition handler (env : Env) (job : gmap string JobValue) : M Result :=
  let! job_input := job_get_input job in
  let text := default default_text (text job_input) in
  let language := default default_language (language job_input) in
  let voice := default default_voice (voice job_input) in
  let speed := default default_speed (speed job_input) in
  let total_step := default default_total_step (total_step job_input) in
  if negb (str_in language available_langs) then
    ret (Error (invalid_language_message language))
  else
    try_catch
      (synthesize_job env text language voice speed total_step)
      (fun e => ret (Error (exn_str e))).

(** ** A stub environment, for running the program on concrete inputs *)

Module Stub.

Definition model : TTS := {| tts_id := 1; sample_rate := 24000 |}.
Definition style : Style := {| style_id := 7 |}.

(** One byte per sample, so that the written length can be read back. *)
Definition write (data : list sample) (rate : Z) : exn + list byte :=
  inr (map (fun _ => x00) data).

(** An environment given by the set of existing paths, the listing of the
    styles directory ([None] when the directory is missing) and what the
    engine returns. *)
Definition env (paths : list string) (styles : option (list string))
    (wav : list (list sample)) (duration : list PyFloat.float) : Env :=
  {| path_exists := fun p => str_in p paths;
     listdir := fun d =>
       match styles with
       | Some l => inr l
       | None =>
           inl (Exn FileNotFoundError
                  ("[Errno 2] No such file or directory: " ++ PyStr.repr d))
       end;
     load_text_to_speech := fun _ _ => inr model;
     load_voice_style := fun _ => inr style;
     synthesize := fun _ _ _ _ _ _ => inr (wav, duration);
     sf_write := write |}.

Definition onnx_paths : list string := map (os_path_join ONNX_DIR) required_files.

Definition all_paths : list string :=
  (onnx_paths ++ ["assets/voice_styles/M1.json"])%list.

Definition zero : sample := S754_zero false.

(** The existing paths, but for those in [absent]. *)
Definition paths_without (absent : list string) : list string :=
  List.filter (fun p => negb (str_in p absent)) all_paths.

(** A waveform of 100 samples and the duration 1/256 s (0.00390625). *)
Definition wav100 : list (list sample) := [repeat zero 100].
Definition dur : PyFloat.float := S754_finite false 4503599627370496 (-60).

(** Every file in place. *)
Definition ready_env : Env := env all_paths (Some ["M1.json"]) wav100 [dur].

(** [vocoder.onnx] is absent. *)
Definition no_vocoder_env : Env :=
  env (paths_without ["assets/onnx/vocoder.onnx"]) (Some ["M1.json"]) wav100 [dur].

(** The styles directory does not exist. *)
Definition no_styles_dir_env : Env := env onnx_paths None wav100 [dur].

(** Every model file in place; the styles directory holds [M2.json] and
    [F1.json.json]. *)
Definition odd_names_env : Env :=
  env onnx_paths (Some ["M2.json"; "F1.json.json"]) wav100 [dur].

(** Every file in place, but the engine call raises. *)
Definition engine_fault : exn := Exn (OtherException "RuntimeError") "inference failed".

Definition faulty_engine_env : Env :=
  {| path_exists := path_exists ready_env;
     listdir := listdir ready_env;
     load_text_to_speech := load_text_to_speech ready_env;
     load_voice_style := load_voice_style ready_env;
     synthesize := fun _ _ _ _ _ _ => inl engine_fault;
     sf_write := sf_write ready_env |}.

Definition job_of (i : JobInput) : gmap string JobValue :=
  {[ "id" := JString "job-1"; "input" := JObject i ]}.

End Stub.

(** ** Sequences of operations on the cache *)

(** What the process can do to the cache after start-up: the two cache
    operations and the handler, each in the environment of its own moment. *)
Inductive operation :=
| OpLoadModel
| OpGetVoiceStyle (voice_name : string)
| OpHandler (job : gmap string JobValue).

Definition run_op (env : Env) (op : operation) (c : Cache) : Cache :=
  match op with
  | OpLoadModel => cache_after (load_model env c)
  | OpGetVoiceStyle v => cache_after (get_voice_style env v c)
  | OpHandler job => cache_after (handler env job c)
  end.

Fixpoint run_ops (ops : list (Env * operation)) (c : Cache) : Cache :=
  match ops with
  | [] => c
  | (env, op) :: ops' => run_ops ops' (run_op env op c)
  end.

(** ** Derived notions used in the statements *)

(** The required files that [os.path.exists] reports absent. *)
Definition missing_files (env : Env) : list string :=
  List.filter (fun f => negb (path_exists env (os_path_join ONNX_DIR f))) required_files.

(** The existence checks of one cold [load_model]. *)
Definition exists_checks : list event :=
  map (fun f => EvExists (os_path_join ONNX_DIR f)) required_files.

(** The style file of a voice. *)
Definition voice_path (voice_name : string) : string :=
  os_path_join VOICE_STYLES_DIR (voice_name ++ ".json").

(** A job input in which every absent field holds its default. *)
Definition fill_defaults (i : JobInput) : JobInput :=
  {| text := Some (match text i with Some t => t | None => "Hello, this is a test." end);
     language := Some (match language i with Some l => l | None => "en" end);
     voice := Some (match voice i with Some v => v | None => "M1" end);
     speed := Some (match speed i with Some s => s | None => NFloat float_1_05 end);
     total_step := Some (match total_step i with Some n => n | None => 5 end) |}.

(** [s] occurs in [t]. *)
Definition occurs_in (s t : string) : Prop :=
  exists pre post, t = pre ++ s ++ post.

(** The voice identifiers that have a style file in a listing of the styles
    directory: the names [v] with [v ++ ".json"] listed. *)
Definition voices_with_style_file (listing : list string) (v : string) : Prop :=
  In (v ++ ".json") listing.

(** The message of the exception [get_voice_style] raises for a voice
    without a style file. *)
Definition unknown_voice_message (voice_name : string) (listing : list string) : string :=
  "Voice style '" ++ voice_name ++ "' not found. Available: "
  ++ PyStr.repr_list (available_voices listing).

(** How one operation, run in [env], may change the cache: the engine handle
    and the cached styles stay, and a style that appears was loaded in [env]
    from a file that exists there. *)
Definition grows (env : Env) (c c' : Cache) : Prop :=
  (forall m, tts_model c = Some m -> tts_model c' = Some m) /\
  (forall v s, voice_styles c !! v = Some s -> voice_styles c' !! v = Some s) /\
  (forall v s, voice_styles c' !! v = Some s ->
     voice_styles c !! v = Some s \/
     (path_exists env (voice_path v) = true /\
      load_voice_style env [voice_path v] = inr s)).

Definition monotone {A} (env : Env) (m : M A) : Prop :=
  forall c, grows env c (cache_after (m c)).

(** The trimmed length the handler computes,
    [int(model.sample_rate * duration[0].item())]. *)
Definition trimmed_length (rate : Z) (d : PyFloat.float) : exn + Z :=
  match PyFloat.int_mul rate d with
  | inl e => inl e
  | inr product => PyFloat.to_int product
  end.

(** The trimmed length as the specification words it,
    [round(sample_rate * duration)]. *)
Definition spec_trimmed_length (rate : Z) (d : PyFloat.float) : exn + Z :=
  match PyFloat.int_mul rate d with
  | inl e => inl e
  | inr product => PyFloat.round product
  end.

(** ** Start-up of the module *)

(** The calls of the engine and of the encoder, as opposed to the calls of
    the file system and of the two loaders. *)
Definition engine_event (ev : event) : bool :=
  match ev with
  | EvSynthesize _ _ _ _ _ _ => true
  | EvWrite _ _ => true
  | _ => false
  end.



(** One run of the statements at the end of the module: whether
    [runpod.serverless.start] was reached ([inr tt]) or an exception ended
    the import, the lines printed, and the external calls made. *)
Record StartupRun := {
  started : exn + unit;
  stdout : list string;
  calls : list event
}.

Definition startup_header : list string :=
  [ "=== Supertonic TTS RunPod Handler ===";
    "ONNX directory: " ++ ONNX_DIR;
    "Voice styles directory: " ++ VOICE_STYLES_DIR ].

(** The second diagnostic block: the voice styles directory. *)
Definition startup_styles (env : Env) (lines : list string) (evs : list event)
  : StartupRun :=
  if path_exists env VOICE_STYLES_DIR then
    match listdir env VOICE_STYLES_DIR with
    | inl e =>
        {| started := inl e; stdout := lines;
           calls := (evs ++ [EvExists VOICE_STYLES_DIR; EvListdir VOICE_STYLES_DIR])%list |}
    | inr listing =>
        {| started := inr tt;
           stdout := (lines ++ [("Voice styles: "
                                 ++ PyStr.repr_list (available_voices listing))%string])%list;
           calls := (evs ++ [EvExists VOICE_STYLES_DIR; EvListdir VOICE_STYLES_DIR])%list |}
    end
  else
    {| started := inr tt;
       stdout := (lines ++ [("WARNING: Voice styles directory not found at "
                             ++ VOICE_STYLES_DIR)%string])%list;
       calls := (evs ++ [EvExists VOICE_STYLES_DIR])%list |}.

(** The module-level statements after the definitions: the header, the two
    diagnostic blocks, then [runpod.serverless.start]. *)
Definition startup (env : Env) : StartupRun :=
  if path_exists env ONNX_DIR then
    match listdir env ONNX_DIR with
    | inl e =>
        {| started := inl e; stdout := startup_header;
           calls := [EvExists ONNX_DIR; EvListdir ONNX_DIR] |}
    | inr files =>
        startup_styles env
          (startup_header ++ [("ONNX files: " ++ PyStr.repr_list files)%string])%list
          [EvExists ONNX_DIR; EvListdir ONNX_DIR]
    end
  else
    startup_styles env
      (startup_header ++ [("WARNING: ONNX directory not found at " ++ ONNX_DIR)%string])%list
      [EvExists ONNX_DIR].

(** ** Further scenarios *)

Module Scenario.

(** An environment in which [os.path.exists] and [os.listdir] are given as
    functions, with the loaders, engine and encoder of the stub. *)
Definition with_files (pe : string -> bool) (ls : string -> exn + list string)
    (wav : list (list sample)) (duration : list PyFloat.float) : Env :=
  {| path_exists := pe;
     listdir := ls;
     load_text_to_speech := fun _ _ => inr Stub.model;
     load_voice_style := fun _ => inr Stub.style;
     synthesize := fun _ _ _ _ _ _ => inr (wav, duration);
     sf_write := Stub.write |}.

Definition not_a_directory (d : string) : exn :=
  Exn (OtherException "NotADirectoryError")
      ("[Errno 20] Not a directory: " ++ PyStr.repr d).

(** Neither directory exists. *)
Definition bare_env : Env :=
  with_files (fun _ => false)
    (fun d => inl (Exn FileNotFoundError
                     ("[Errno 2] No such file or directory: " ++ PyStr.repr d)))
    Stub.wav100 [Stub.dur].

(** [assets/onnx] is a regular file. *)
Definition onnx_is_file_env : Env :=
  with_files (fun p => String.eqb p ONNX_DIR) (fun d => inl (not_a_directory d))
    Stub.wav100 [Stub.dur].

(** Every file in place; the engine returns the given waveform and
    duration. *)
Definition engine_returns (wav : list (list sample)) (duration : list PyFloat.float)
  : Env :=
  Stub.env Stub.all_paths (Some ["M1.json"]) wav duration.

(** The duration -1/256 s. *)
Definition negative_dur : PyFloat.float := S754_finite true 4503599627370496 (-60).

(** The duration 1 s. *)
Definition one_second : PyFloat.float := S754_finite false 4503599627370496 (-52).

(** A cache in which the engine and the voice [M1] are loaded. *)
Definition warm_cache : Cache :=
  {| tts_model := Some Stub.model; voice_styles := {[ "M1" := Stub.style ]} |}.

(** A job naming a voice. *)
Definition job_for_voice (v : string) : gmap string JobValue :=
  Stub.job_of {| text := Some "Hi"; language := Some "en"; voice := Some v;
                 speed := None; total_step := None |}.

(** Only the model files and [/tmp/x.json] exist. *)
Definition outside_env : Env :=
  Stub.env (Stub.onnx_paths ++ ["/tmp/x.json"])%list (Some []) Stub.wav100 [Stub.dur].

(** Every file in place, but the model loader raises. *)
Definition loader_fault : exn := Exn (OtherException "RuntimeError") "corrupt model".

Definition faulty_loader_env : Env :=
  {| path_exists := path_exists Stub.ready_env;
     listdir := listdir Stub.ready_env;
     load_text_to_speech := fun _ _ => inl loader_fault;
     load_voice_style := load_voice_style Stub.ready_env;
     synthesize := synthesize Stub.ready_env;
     sf_write := sf_write Stub.ready_env |}.

(** The styles directory is a regular file; the model directory is
    missing. *)
Definition styles_is_file_env : Env :=
  with_files (fun p => String.eqb p VOICE_STYLES_DIR) (fun d => inl (not_a_directory d))
    Stub.wav100 [Stub.dur].

End Scenario.

(** A trace without any call of the engine or of the encoder. *)
Definition quiet (t : list event) : Prop :=
  forallb (fun ev => negb (engine_event ev)) t = true.

(** The external calls of a sequence of operations, in order. *)
Definition op_trace (env : Env) (op : operation) (c : Cache) : list event :=
  match op with
  | OpLoadModel => trace (load_model env c)
  | OpGetVoiceStyle v => trace (get_voice_style env v c)
  | OpHandler job => trace (handler env job c)
  end.

Fixpoint run_trace (ops : list (Env * operation)) (c : Cache) : list event :=
  match ops with
  | [] => []
  | (env, op) :: ops' => (op_trace env op c ++ run_trace ops' (run_op env op c))%list
  end.

(** ** Reading base64 back *)

(** A decoder for padded base64 text (RFC 4648), the inverse of
    [Base64.b64encode]; it serves to state that the audio field carries the
    written bytes. *)
Module Base64Decode.

Fixpoint index_of (c : ascii) (s : string) (i : N) : N :=
  match s with
  | EmptyString => 0%N
  | String d s' => if Ascii.eqb c d then i else index_of c s' (i + 1)%N
  end.

Definition unsextet (c : ascii) : N := index_of c Base64.alphabet 0.

Definition to_byte (n : N) : byte :=
  match Byte.of_N n with
  | Some b => b
  | None => x00
  end.

Definition decode4 (a b c d : ascii) : list byte :=
  let w := unsextet a in
  let x := unsextet b in
  let y := unsextet c in
  let z := unsextet d in
  let b1 := to_byte (w * 4 + x / 16)%N in
  let b2 := to_byte ((x mod 16) * 16 + y / 4)%N in
  let b3 := to_byte ((y mod 4) * 64 + z)%N in
  if Ascii.eqb c "=" then [b1]
  else if Ascii.eqb d "=" then [b1; b2]
  else [b1; b2; b3].

Fixpoint b64decode (s : string) : list byte :=
  match s with
  | String a (String b (String c (String d r))) =>
      (decode4 a b c d ++ b64decode r)%list
  | _ => []
  end.

End Base64Decode.

(** ** The monad: how runs compose *)

Lemma bind_inv {A B} (m : M A) (k : A -> M B) c b c2 t :
  bind m k c = (inr b, c2, t) ->
  exists a c1 t1 t2,
    m c = (inr a, c1, t1) /\ k a c1 = (inr b, c2, t2) /\ t = (t1 ++ t2)%list.
Proof.
  unfold bind. destruct (m c) as [[[e | a] c1] t1]; [discriminate |].
  destruct (k a c1) as [[r c2'] t2] eqn:Hk. intros [= -> -> <-].
  now exists a, c1, t1, t2.
Qed.

(** ** [load_model] *)

Lemma collect_missing_run env files c :
  collect_missing env files c =
    (inr (List.filter (fun f => negb (path_exists env (os_path_join ONNX_DIR f))) files),
     c,
     map (fun f => EvExists (os_path_join ONNX_DIR f)) files).
Proof.
  revert c. induction files as [| f files IH]; intros c; [reflexivity |].
  cbn [collect_missing]. unfold bind at 1. cbn [os_path_exists call].
  unfold bind at 1. rewrite IH. cbn [ret List.filter map app].
  rewrite app_nil_r.
  now destruct (path_exists env (os_path_join ONNX_DIR f)).
Qed.

Lemma load_model_cached env c m :
  tts_model c = Some m -> load_model env c = (inr m, c, []).
Proof. intros H. unfold load_model, bind, get_cache. now rewrite H. Qed.

Lemma load_model_missing env c :
  tts_model c = None -> missing_files env <> [] ->
  load_model env c =
    (inl (Exn FileNotFoundError
            ("Missing required model files: " ++ PyStr.repr_list (missing_files env))),
     c, exists_checks).
Proof.
  intros Hc Hm. unfold load_model, bind at 1, get_cache. rewrite Hc.
  unfold bind at 1. rewrite collect_missing_run. fold (missing_files env).
  destruct (missing_files env) as [| f l]; [congruence |].
  cbn [raise]. unfold exists_checks. now rewrite app_nil_r.
Qed.

Lemma load_model_cold env c :
  tts_model c = None -> missing_files env = [] ->
  load_model env c =
    match load_text_to_speech env ONNX_DIR false with
    | inl e => (inl e, c, (exists_checks ++ [EvLoadModel ONNX_DIR false])%list)
    | inr m => (inr m, {| tts_model := Some m; voice_styles := voice_styles c |},
                (exists_checks ++ [EvLoadModel ONNX_DIR false])%list)
    end.
Proof.
  intros Hc Hm. unfold load_model, bind at 1, get_cache. rewrite Hc.
  unfold bind at 1. rewrite collect_missing_run. fold (missing_files env).
  rewrite Hm. unfold bind, call, set_tts_model, ret, exists_checks.
  destruct (load_text_to_speech env ONNX_DIR false); cbn; now rewrite ?app_nil_r.
Qed.

(** ** [get_voice_style] *)

Lemma get_voice_style_cached env v c s :
  voice_styles c !! v = Some s -> get_voice_style env v c = (inr s, c, []).
Proof.
  intros H. unfold get_voice_style, bind, get_cache. rewrite H. cbn. now rewrite H.
Qed.

Lemma get_voice_style_absent env v c :
  voice_styles c !! v = None -> path_exists env (voice_path v) = false ->
  get_voice_style env v c =
    (inl match listdir env VOICE_STYLES_DIR with
         | inl e => e
         | inr listing => Exn FileNotFoundError (unknown_voice_message v listing)
         end,
     c, [EvExists (voice_path v); EvListdir VOICE_STYLES_DIR]).
Proof.
  intros Hc Hp. unfold get_voice_style, bind, get_cache. rewrite Hc.
  unfold os_path_exists, call. fold (voice_path v). rewrite Hp.
  unfold os_listdir, call, raise, unknown_voice_message.
  now destruct (listdir env VOICE_STYLES_DIR).
Qed.

Lemma get_voice_style_present env v c :
  voice_styles c !! v = None -> path_exists env (voice_path v) = true ->
  get_voice_style env v c =
    match load_voice_style env [voice_path v] with
    | inl e => (inl e, c, [EvExists (voice_path v); EvLoadStyle [voice_path v]])
    | inr s =>
        (inr s,
         {| tts_model := tts_model c; voice_styles := <[v := s]> (voice_styles c) |},
         [EvExists (voice_path v); EvLoadStyle [voice_path v]])
    end.
Proof.
  intros Hc Hp. unfold get_voice_style, bind, get_cache. rewrite Hc.
  unfold os_path_exists, call. fold (voice_path v). rewrite Hp.
  unfold ret, set_voice_style.
  destruct (load_voice_style env [voice_path v]) as [e | s]; [reflexivity |].
  cbn. now rewrite lookup_insert_eq.
Qed.

(** The three ways a call can go, by the state of the cache and the file. *)
Lemma get_voice_style_cases env v c :
  (exists s, voice_styles c !! v = Some s /\ get_voice_style env v c = (inr s, c, []))
  \/ (voice_styles c !! v = None /\
      exists e t, get_voice_style env v c = (inl e, c, t))
  \/ (voice_styles c !! v = None /\ path_exists env (voice_path v) = true /\
      exists s, load_voice_style env [voice_path v] = inr s /\
        get_voice_style env v c =
          (inr s,
           {| tts_model := tts_model c; voice_styles := <[v := s]> (voice_styles c) |},
           [EvExists (voice_path v); EvLoadStyle [voice_path v]])).
Proof.
  destruct (voice_styles c !! v) as [s |] eqn:Hc.
  - left. exists s. split; [reflexivity |]. now apply get_voice_style_cached.
  - right. destruct (path_exists env (voice_path v)) eqn:Hp.
    + pose proof (get_voice_style_present env v c Hc Hp) as H.
      destruct (load_voice_style env [voice_path v]) as [e | s] eqn:Hl.
      * left. split; [reflexivity |]. eauto.
      * right. split; [reflexivity |]. split; [reflexivity |]. exists s. now split.
    + left. split; [reflexivity |].
      rewrite (get_voice_style_absent env v c Hc Hp). eauto.
Qed.

(** The two ways [load_model] can leave the cache. *)
Lemma load_model_cases env c :
  cache_after (load_model env c) = c
  \/ (tts_model c = None /\ missing_files env = [] /\
      exists m, load_text_to_speech env ONNX_DIR false = inr m /\
        load_model env c =
          (inr m, {| tts_model := Some m; voice_styles := voice_styles c |},
           (exists_checks ++ [EvLoadModel ONNX_DIR false])%list)).
Proof.
  destruct (tts_model c) as [m |] eqn:Hc.
  - left. now rewrite (load_model_cached env c m Hc).
  - destruct (missing_files env) as [| f l] eqn:Hm.
    + pose proof (load_model_cold env c Hc Hm) as H.
      destruct (load_text_to_speech env ONNX_DIR false) as [e | m] eqn:Hl.
      * left. now rewrite H.
      * right. split; [reflexivity |]. split; [reflexivity |]. exists m. now split.
    + left. rewrite load_model_missing; [reflexivity | assumption | congruence].
Qed.

(** ** The cache only grows *)

Lemma grows_refl env c : grows env c c.
Proof. repeat split; auto. Qed.

Lemma grows_trans env c1 c2 c3 :
  grows env c1 c2 -> grows env c2 c3 -> grows env c1 c3.
Proof.
  intros (Ha & Hb & Hc) (Ha' & Hb' & Hc'). repeat split; auto.
  intros v s H. destruct (Hc' v s H) as [H2 | H2]; auto.
Qed.

Section Monotone.
Variable env : Env.

Lemma monotone_ret {A} (a : A) : monotone env (ret a).
Proof. intros c. apply grows_refl. Qed.

Lemma monotone_raise {A} e : monotone env (@raise A e).
Proof. intros c. apply grows_refl. Qed.

Lemma monotone_lift {A} (r : exn + A) : monotone env (lift r).
Proof. intros c. apply grows_refl. Qed.

Lemma monotone_call {A} ev (r : exn + A) : monotone env (call ev r).
Proof. intros c. apply grows_refl. Qed.

Lemma monotone_bind {A B} (m : M A) (k : A -> M B) :
  monotone env m -> (forall a, monotone env (k a)) -> monotone env (bind m k).
Proof.
  intros Hm Hk c. specialize (Hm c). unfold bind, cache_after in *.
  destruct (m c) as [[[e | a] c1] t1]; cbn in *; [assumption |].
  specialize (Hk a c1). unfold cache_after in Hk.
  destruct (k a c1) as [[r c2] t2]; cbn in *. eapply grows_trans; eassumption.
Qed.

Lemma monotone_try_catch {A} (m : M A) h :
  monotone env m -> (forall e, monotone env (h e)) -> monotone env (try_catch m h).
Proof.
  intros Hm Hh c. specialize (Hm c). unfold try_catch, cache_after in *.
  destruct (m c) as [[[e | a] c1] t1]; cbn in *; [| assumption].
  specialize (Hh e c1). unfold cache_after in Hh.
  destruct (h e c1) as [[r c2] t2]; cbn in *. eapply grows_trans; eassumption.
Qed.

Lemma load_model_monotone : monotone env (load_model env).
Proof.
  intros c. destruct (load_model_cases env c) as [-> | (Hc & _ & m & _ & ->)].
  - apply grows_refl.
  - cbn. repeat split; cbn; auto. intros m'. rewrite Hc. discriminate.
Qed.

Lemma get_voice_style_monotone v : monotone env (get_voice_style env v).
Proof.
  intros c.
  destruct (get_voice_style_cases env v c)
    as [(s & _ & ->) | [(_ & e & t & ->) | (Hc & Hp & s & Hl & ->)]];
    try apply grows_refl.
  cbn. repeat split; cbn; auto.
  - intros v' s' H. destruct (decide (v = v')) as [<- | Hne].
    + congruence.
    + now rewrite lookup_insert_ne.
  - intros v' s' H. destruct (decide (v = v')) as [<- | Hne].
    + rewrite lookup_insert_eq in H. injection H as <-. now right.
    + rewrite lookup_insert_ne in H by assumption. now left.
Qed.

Lemma synthesize_job_monotone text language voice speed total_step :
  monotone env (synthesize_job env text language voice speed total_step).
Proof.
  unfold synthesize_job.
  apply monotone_bind; [apply load_model_monotone | intros model].
  apply monotone_bind; [apply get_voice_style_monotone | intros style].
  apply monotone_bind; [apply monotone_call | intros [wav duration]].
  apply monotone_bind; [destruct duration; [apply monotone_raise | apply monotone_ret] | intros d].
  apply monotone_bind; [apply monotone_lift | intros product].
  apply monotone_bind; [apply monotone_lift | intros n].
  apply monotone_bind; [destruct wav; [apply monotone_raise | apply monotone_ret] | intros w].
  apply monotone_bind; [apply monotone_call | intros buffer].
  apply monotone_ret.
Qed.

Lemma handler_monotone job : monotone env (handler env job).
Proof.
  unfold handler. apply monotone_bind.
  - unfold job_get_input. destruct (job !! "input") as [[s | o] |];
      [apply monotone_raise | apply monotone_ret | apply monotone_ret].
  - intros i. destruct (negb _); [apply monotone_ret |].
    apply monotone_try_catch; [apply synthesize_job_monotone | intros e; apply monotone_ret].
Qed.

Lemma run_op_grows op c : grows env c (run_op env op c).
Proof.
  destruct op; cbn.
  - apply load_model_monotone.
  - apply get_voice_style_monotone.
  - apply handler_monotone.
Qed.
End Monotone.

Lemma run_ops_keeps_engine ops c m :
  tts_model c = Some m -> tts_model (run_ops ops c) = Some m.
Proof.
  revert c. induction ops as [| [env op] ops IH]; intros c H; [assumption |].
  cbn. apply IH. now apply (run_op_grows env op c).
Qed.

Lemma run_ops_keeps_style ops c v s :
  voice_styles c !! v = Some s -> voice_styles (run_ops ops c) !! v = Some s.
Proof.
  revert c. induction ops as [| [env op] ops IH]; intros c H; [assumption |].
  cbn. apply IH. now apply (run_op_grows env op c).
Qed.

Lemma run_ops_styles_loaded ops c v s :
  voice_styles (run_ops ops c) !! v = Some s ->
  voice_styles c !! v = Some s \/
  exists env, In env (map fst ops) /\
    path_exists env (voice_path v) = true /\
    load_voice_style env [voice_path v] = inr s.
Proof.
  revert c. induction ops as [| [env op] ops IH]; intros c H; [now left |].
  cbn in H. destruct (IH _ H) as [H1 | (env' & Hin & Hp & Hl)].
  - destruct (run_op_grows env op c) as (_ & _ & Hnew).
    destruct (Hnew v s H1) as [H2 | [Hp Hl]]; [now left |].
    right. exists env. cbn. auto.
  - right. exists env'. cbn. auto.
Qed.

(** ** Strings: what a formatted list mentions *)

Lemma str_app_cons (x : ascii) (a b : string) : String x a ++ b = String x (a ++ b).
Proof. reflexivity. Qed.

Lemma str_app_assoc (a b c : string) : (a ++ b) ++ c = a ++ (b ++ c).
Proof.
  induction a as [| x a IH]; [reflexivity |].
  rewrite !str_app_cons. now f_equal.
Qed.

Lemma str_app_nil_r (a : string) : a ++ "" = a.
Proof.
  induction a as [| x a IH]; [reflexivity |].
  rewrite str_app_cons. now f_equal.
Qed.

Lemma occurs_in_app_l s t u : occurs_in s t -> occurs_in s (u ++ t).
Proof.
  intros (pre & post & ->). exists (u ++ pre), post. now rewrite str_app_assoc.
Qed.

Lemma occurs_in_app_r s t u : occurs_in s t -> occurs_in s (t ++ u).
Proof.
  intros (pre & post & ->). exists pre, (post ++ u).
  now rewrite !str_app_assoc.
Qed.

Lemma occurs_in_refl s : occurs_in s s.
Proof. exists "", "". cbn. now rewrite str_app_nil_r. Qed.

Lemma join_mentions sep x l : In x l -> occurs_in x (PyStr.join sep l).
Proof.
  induction l as [| y l IH]; [intros [] |].
  intros [-> | Hin].
  - destruct l as [| z l]; cbn [PyStr.join]; [apply occurs_in_refl |].
    apply occurs_in_app_r, occurs_in_refl.
  - destruct l as [| z l]; [destruct Hin |].
    cbn [PyStr.join]. apply occurs_in_app_l, occurs_in_app_l, IH, Hin.
Qed.

(** Every element of a list appears, quoted, in the list's [repr]. *)
Lemma repr_list_mentions x l : In x l -> occurs_in (PyStr.repr x) (PyStr.repr_list l).
Proof.
  intros Hin. unfold PyStr.repr_list.
  apply occurs_in_app_l, occurs_in_app_r, join_mentions, in_map, Hin.
Qed.


(** ** The engine cache *)

Lemma load_model_stores env c m :
  outcome (load_model env c) = inr m ->
  tts_model (cache_after (load_model env c)) = Some m.
Proof.
  destruct (tts_model c) as [m' |] eqn:Hc.
  - rewrite (load_model_cached env c m' Hc). cbn. congruence.
  - destruct (missing_files env) as [| f l] eqn:Hm.
    + rewrite (load_model_cold env c Hc Hm).
      destruct (load_text_to_speech env ONNX_DIR false); cbn; congruence.
    + rewrite load_model_missing; [cbn; discriminate | assumption | congruence].
Qed.


(** C6: once [load_model] has returned a handle [m], then after any later
    operations, in any environments, the cached handle is still [m], and
    asking for the engine again returns [m] itself, makes no external call
    (no existence check, no load) and leaves the cache as it is. *)
Theorem load_model_returns_cached_handle env c m ops env' :
  outcome (load_model env c) = inr m ->
  let c1 := cache_after (load_model env c) in
  load_model env' c1 = (inr m, c1, [])
  /\ tts_model (run_ops ops c1) = Some m
  /\ load_model env' (run_ops ops c1) = (inr m, run_ops ops c1, []).
Proof.
  intros H c1. pose proof (load_model_stores env c m H) as Hs. fold c1 in Hs.
  split; [now apply load_model_cached |].
  pose proof (run_ops_keeps_engine ops c1 m Hs) as Hk.
  split; [exact Hk | now apply load_model_cached].
Qed.


Lemma load_model_returns_cached_handle_witness :
  outcome (load_model Stub.ready_env initial_cache) = inr Stub.model
  /\ load_model Stub.no_vocoder_env (cache_after (load_model Stub.ready_env initial_cache)) =
       (inr Stub.model, cache_after (load_model Stub.ready_env initial_cache), [])
  /\ tts_model
       (run_ops [(Stub.no_styles_dir_env, OpHandler (Stub.job_of empty_input));
                 (Stub.no_vocoder_env, OpLoadModel)]
          (cache_after (load_model Stub.ready_env initial_cache))) = Some Stub.model.
Proof.
  destruct (load_model_returns_cached_handle Stub.ready_env initial_cache Stub.model
              [(Stub.no_styles_dir_env, OpHandler (Stub.job_of empty_input));
               (Stub.no_vocoder_env, OpLoadModel)]
              Stub.no_vocoder_env eq_refl) as (H1 & H2 & _).
  split; [reflexivity |]. split; [exact H1 | exact H2].
Defined.

(** ** The style cache *)

Lemma load_model_keeps_styles env c :
  voice_styles (cache_after (load_model env c)) = voice_styles c.
Proof.
  destruct (load_model_cases env c) as [-> | (_ & _ & m & _ & ->)]; reflexivity.
Qed.

Lemma get_voice_style_stores env v c s :
  outcome (get_voice_style env v c) = inr s ->
  voice_styles (cache_after (get_voice_style env v c)) !! v = Some s.
Proof.
  destruct (get_voice_style_cases env v c)
    as [(s' & Hc & ->) | [(_ & e & t & ->) | (_ & _ & s' & _ & ->)]]; cbn.
  - congruence.
  - discriminate.
  - intros [= ->]. apply lookup_insert_eq.
Qed.

Lemma get_voice_style_failure_keeps_cache env v c e :
  outcome (get_voice_style env v c) = inl e ->
  cache_after (get_voice_style env v c) = c.
Proof.
  destruct (get_voice_style_cases env v c)
    as [(s' & Hc & ->) | [(_ & e' & t & ->) | (_ & _ & s' & _ & ->)]]; cbn;
    [reflexivity | reflexivity | discriminate].
Qed.

(** C7: in every cache the process can reach from start-up, each key of
    [voice_styles] holds a style that [load_voice_style] returned, in the
    environment of some earlier operation, for that voice's existing file;
    a call of [get_voice_style] that raises leaves the cache as it was; once
    a call has returned a style [s] for a voice, every later call for that
    voice, after any operations and in any environment, returns [s] again
    without any external call; and an entry is never removed or changed. *)
Theorem voice_styles_only_loaded_styles ops c env v :
  (forall v' s',
      voice_styles (run_ops ops initial_cache) !! v' = Some s' ->
      exists env0, In env0 (map fst ops) /\
        path_exists env0 (voice_path v') = true /\
        load_voice_style env0 [voice_path v'] = inr s')
  /\ (forall e, outcome (get_voice_style env v c) = inl e ->
        cache_after (get_voice_style env v c) = c)
  /\ (forall s, outcome (get_voice_style env v c) = inr s ->
        forall ops' env',
          let c' := run_ops ops' (cache_after (get_voice_style env v c)) in
          voice_styles c' !! v = Some s /\
          get_voice_style env' v c' = (inr s, c', []))
  /\ (forall v' s' ops',
        voice_styles c !! v' = Some s' ->
        voice_styles (run_ops ops' c) !! v' = Some s').
Proof.
  split.
  { intros v' s' H. destruct (run_ops_styles_loaded ops initial_cache v' s' H) as [H0 | H0].
    - cbn in H0. rewrite lookup_empty in H0. discriminate.
    - exact H0. }
  split; [intros e; apply get_voice_style_failure_keeps_cache |].
  split.
  { intros s Hs ops' env' c'.
    assert (voice_styles c' !! v = Some s) as Hc'
      by (apply run_ops_keeps_style, get_voice_style_stores, Hs).
    split; [exact Hc' | now apply get_voice_style_cached]. }
  intros v' s' ops'. apply run_ops_keeps_style.
Qed.

Lemma voice_styles_only_loaded_styles_witness :
  let ops := [(Stub.ready_env, OpHandler (Stub.job_of empty_input))] in
  voice_styles (run_ops ops initial_cache) !! "M1" = Some Stub.style
  /\ (exists env0, In env0 (map fst ops) /\
        path_exists env0 (voice_path "M1") = true /\
        load_voice_style env0 [voice_path "M1"] = inr Stub.style)
  /\ outcome (get_voice_style Stub.no_styles_dir_env "M1" initial_cache) <> inr Stub.style
  /\ cache_after (get_voice_style Stub.no_styles_dir_env "M1" initial_cache) = initial_cache
  /\ get_voice_style Stub.no_styles_dir_env "M1"
       (cache_after (get_voice_style Stub.ready_env "M1" initial_cache)) =
       (inr Stub.style, cache_after (get_voice_style Stub.ready_env "M1" initial_cache), []).
Proof.
  intros ops.
  destruct (voice_styles_only_loaded_styles ops initial_cache Stub.no_styles_dir_env "M1")
    as (Hloaded & Hfail & _ & _).
  destruct (voice_styles_only_loaded_styles ops initial_cache Stub.ready_env "M1")
    as (_ & _ & Htwice & _).
  split; [reflexivity |].
  split; [exact (Hloaded "M1" Stub.style eq_refl) |].
  split; [vm_compute; discriminate |].
  split; [exact (Hfail _ eq_refl) |].
  exact (proj2 (Htwice Stub.style eq_refl [] Stub.no_styles_dir_env)).
Defined.

(** ** The handler: reading the job *)

Lemma outcome_bind {A B} (m : M A) (k : A -> M B) c :
  outcome (bind m k c) =
    match outcome (m c) with
    | inl e => inl e
    | inr a => outcome (k a (cache_after (m c)))
    end.
Proof.
  unfold bind, outcome, cache_after. destruct (m c) as [[[e | a] c1] t1]; cbn; [reflexivity |].
  now destruct (k a c1) as [[r c2] t2].
Qed.

Lemma outcome_try_catch {A} (m : M A) (f : exn -> A) c :
  outcome (try_catch m (fun e => ret (f e)) c) =
    inr match outcome (m c) with inl e => f e | inr a => a end.
Proof.
  unfold try_catch, outcome, ret. now destruct (m c) as [[[e | a] c1] t1].
Qed.

(** The handler on a job whose input is the object [i]. *)
Lemma handler_on_input env job i c :
  job !! "input" = Some (JObject i) ->
  handler env job c =
    let text := default default_text (text i) in
    let language := default default_language (language i) in
    let voice := default default_voice (voice i) in
    let speed := default default_speed (speed i) in
    let total_step := default default_total_step (total_step i) in
    if negb (str_in language available_langs) then
      (inr (Error (invalid_language_message language)), c, [])
    else
      try_catch
        (synthesize_job env text language voice speed total_step)
        (fun e => ret (Error (exn_str e))) c.
Proof.
  intros H. unfold handler, job_get_input, bind at 1. rewrite H. cbn [ret].
  cbv zeta. destruct (negb _).
  - reflexivity.
  - destruct (try_catch _ _ c) as [[r c2] t2]. reflexivity.
Qed.

Lemma handler_without_input env job c :
  job !! "input" = None ->
  handler env job c = handler env (<["input" := JObject empty_input]> job) c.
Proof.
  intros H. unfold handler, job_get_input, bind.
  now rewrite H, lookup_insert_eq.
Qed.

Lemma handler_never_raises_on_input env job i c :
  job !! "input" = Some (JObject i) ->
  exists r, outcome (handler env job c) = inr r.
Proof.
  intros H. rewrite (handler_on_input env job i c H). cbv zeta.
  destruct (negb _); [eexists; reflexivity |].
  rewrite outcome_try_catch. eexists; reflexivity.
Qed.

(** C8: a job input with absent fields is handled exactly as the input in
    which each absent field holds its default (text "Hello, this is a
    test.", language "en", voice "M1", speed 1.05, step count 5): the
    language check and the synthesis both use the values after defaulting.
    The speed default is the binary64 number nearest to 105/100. *)
Theorem handler_fills_defaults env job i c :
  job !! "input" = Some (JObject i) ->
  handler env job c = handler env (<["input" := JObject (fill_defaults i)]> job) c
  /\ (let text := match text i with Some t => t | None => "Hello, this is a test." end in
      let language := match language i with Some l => l | None => "en" end in
      let voice := match voice i with Some v => v | None => "M1" end in
      let speed := match speed i with Some s => s | None => NFloat float_1_05 end in
      let total_step := match total_step i with Some n => n | None => 5 end in
      handler env job c =
        if negb (str_in language available_langs) then
          (inr (Error (invalid_language_message language)), c, [])
        else
          try_catch
            (synthesize_job env text language voice speed total_step)
            (fun e => ret (Error (exn_str e))) c)
  /\ SFdiv PyFloat.prec PyFloat.emax (PyFloat.of_int 105) (PyFloat.of_int 100) = float_1_05.
Proof.
  intros H. split; [| split].
  - rewrite (handler_on_input env job i c H).
    rewrite (handler_on_input env _ (fill_defaults i) c) by apply lookup_insert_eq.
    destruct i as [[t |] [l |] [v |] [s |] [n |]]; reflexivity.
  - rewrite (handler_on_input env job i c H).
    destruct i as [[t |] [l |] [v |] [s |] [n |]]; reflexivity.
  - vm_compute. reflexivity.
Qed.

Lemma handler_fills_defaults_witness :
  Stub.job_of empty_input !! "input" = Some (JObject empty_input)
  /\ handler Stub.ready_env (Stub.job_of empty_input) initial_cache =
       handler Stub.ready_env
         (<["input" := JObject
              {| text := Some "Hello, this is a test."; language := Some "en";
                 voice := Some "M1"; speed := Some (NFloat float_1_05);
                 total_step := Some 5 |}]> (Stub.job_of empty_input))
         initial_cache
  /\ In (EvSynthesize Stub.model "Hello, this is a test." "en" Stub.style 5
           (NFloat float_1_05))
        (trace (handler Stub.ready_env (Stub.job_of empty_input) initial_cache)).
Proof.
  split; [reflexivity |]. split.
  - exact (proj1 (handler_fills_defaults Stub.ready_env (Stub.job_of empty_input)
                    empty_input initial_cache eq_refl)).
  - vm_compute. tauto.
Defined.

(** C9: a job without the "input" key is handled exactly as the same job
    with an explicit empty input, hence as the job whose input holds the five
    defaults: the run is the [try] block on the text "Hello, this is a
    test.", the language "en", the voice "M1", the speed 1.05 and the step
    count 5, with its exceptions turned into error results; so the handler
    returns what that synthesis gives, or its error, rather than raising. *)
Theorem handler_defaults_missing_input env job c :
  job !! "input" = None ->
  handler env job c = handler env (<["input" := JObject empty_input]> job) c
  /\ handler env job c =
       handler env (<["input" := JObject (fill_defaults empty_input)]> job) c
  /\ handler env job c =
       try_catch
         (synthesize_job env "Hello, this is a test." "en" "M1" (NFloat float_1_05) 5)
         (fun e => ret (Error (exn_str e))) c
  /\ outcome (handler env job c) =
       inr match outcome (synthesize_job env "Hello, this is a test." "en" "M1"
                            (NFloat float_1_05) 5 c) with
           | inl e => Error (exn_str e)
           | inr r => r
           end
  /\ exists r, outcome (handler env job c) = inr r.
Proof.
  intros H. pose proof (handler_without_input env job c H) as H1.
  assert (handler env job c =
            try_catch
              (synthesize_job env "Hello, this is a test." "en" "M1" (NFloat float_1_05) 5)
              (fun e => ret (Error (exn_str e))) c) as Hrun.
  { rewrite H1.
    rewrite (handler_on_input env _ empty_input c) by apply lookup_insert_eq.
    reflexivity. }
  split; [exact H1 |]. split.
  { rewrite H1.
    rewrite (handler_on_input env _ empty_input c) by apply lookup_insert_eq.
    rewrite (handler_on_input env _ (fill_defaults empty_input) c) by apply lookup_insert_eq.
    reflexivity. }
  split; [exact Hrun |]. split.
  - rewrite Hrun. apply outcome_try_catch.
  - rewrite H1. apply (handler_never_raises_on_input env _ empty_input).
    apply lookup_insert_eq.
Qed.

Lemma handler_defaults_missing_input_witness :
  ({[ "id" := JString "job-1" ]} : gmap string JobValue) !! "input" = None
  /\ handler Stub.ready_env {[ "id" := JString "job-1" ]} initial_cache =
       handler Stub.ready_env
         (<["input" := JObject empty_input]> {[ "id" := JString "job-1" ]}) initial_cache
  /\ handler Stub.ready_env {[ "id" := JString "job-1" ]} initial_cache =
       try_catch
         (synthesize_job Stub.ready_env "Hello, this is a test." "en" "M1"
            (NFloat float_1_05) 5)
         (fun e => ret (Error (exn_str e))) initial_cache
  /\ exists r, outcome (handler Stub.ready_env {[ "id" := JString "job-1" ]} initial_cache) = inr r.
Proof.
  assert (({[ "id" := JString "job-1" ]} : gmap string JobValue) !! "input" = None) as H
    by reflexivity.
  destruct (handler_defaults_missing_input Stub.ready_env {[ "id" := JString "job-1" ]}
              initial_cache H) as (H1 & _ & H3 & _ & H5).
  split; [exact H |]. split; [exact H1 |]. split; [exact H3 | exact H5].
Defined.

(** ** The handler: failures inside the [try] block *)

Section Failures.
Variables (env : Env) (text language voice : string) (speed : number) (total_step : Z).

Lemma synthesize_job_load_fails c e :
  outcome (load_model env c) = inl e -> outcome (synthesize_job env text language voice speed total_step c) = inl e.
Proof.
  intros H. unfold synthesize_job. rewrite outcome_bind. now rewrite H.
Qed.

Lemma synthesize_job_style_fails c m e :
  outcome (load_model env c) = inr m ->
  outcome (get_voice_style env voice (cache_after (load_model env c))) = inl e ->
  outcome (synthesize_job env text language voice speed total_step c) = inl e.
Proof.
  intros Hm Hs. unfold synthesize_job.
  rewrite outcome_bind, Hm, outcome_bind. now rewrite Hs.
Qed.

Lemma synthesize_job_engine_fails c m s e :
  outcome (load_model env c) = inr m ->
  outcome (get_voice_style env voice (cache_after (load_model env c))) = inr s ->
  synthesize env m text language s total_step speed = inl e ->
  outcome (synthesize_job env text language voice speed total_step c) = inl e.
Proof.
  intros Hm Hs He. unfold synthesize_job.
  rewrite outcome_bind, Hm, outcome_bind, Hs, outcome_bind.
  unfold call at 1. unfold outcome at 1. cbn [fst]. now rewrite He.
Qed.

Lemma synthesize_job_encoding_fails c m s row rows d ds product n e :
  outcome (load_model env c) = inr m ->
  outcome (get_voice_style env voice (cache_after (load_model env c))) = inr s ->
  synthesize env m text language s total_step speed = inr (row :: rows, d :: ds) ->
  PyFloat.int_mul (sample_rate m) d = inr product ->
  PyFloat.to_int product = inr n ->
  sf_write env (slice_to n row) (sample_rate m) = inl e ->
  outcome (synthesize_job env text language voice speed total_step c) = inl e.
Proof.
  intros Hm Hs He Hp Hn Hw. unfold synthesize_job.
  rewrite outcome_bind, Hm, outcome_bind, Hs, outcome_bind.
  unfold call at 1. unfold outcome at 1. cbn [fst]. rewrite He.
  rewrite outcome_bind. cbn [first_item ret outcome fst].
  rewrite outcome_bind. unfold int_mul_float, lift at 1. unfold outcome at 1.
  cbn [fst]. rewrite Hp.
  rewrite outcome_bind. unfold py_int, lift at 1. unfold outcome at 1.
  cbn [fst]. rewrite Hn.
  rewrite outcome_bind. cbn [row0_slice_to ret outcome fst].
  rewrite outcome_bind. unfold call at 1. unfold outcome at 1. cbn [fst].
  now rewrite Hw.
Qed.
End Failures.

(** The handler on a job whose input reads as [i]: the object under "input",
    or the empty object when the key is absent. *)
Lemma handler_on_read_input env job i c :
  outcome (job_get_input job c) = inr i ->
  handler env job c =
    let text := default default_text (text i) in
    let language := default default_language (language i) in
    let voice := default default_voice (voice i) in
    let speed := default default_speed (speed i) in
    let total_step := default default_total_step (total_step i) in
    if negb (str_in language available_langs) then
      (inr (Error (invalid_language_message language)), c, [])
    else
      try_catch
        (synthesize_job env text language voice speed total_step)
        (fun e => ret (Error (exn_str e))) c.
Proof.
  unfold job_get_input. destruct (job !! "input") as [[s | o] |] eqn:Hj; cbn.
  - discriminate.
  - intros [= ->]. now apply handler_on_input.
  - intros [= <-]. rewrite (handler_without_input env job c Hj).
    apply handler_on_input, lookup_insert_eq.
Qed.

Lemma read_input_object job i c :
  job !! "input" = Some (JObject i) -> outcome (job_get_input job c) = inr i.
Proof. intros H. unfold job_get_input. now rewrite H. Qed.

Lemma read_input_absent job c :
  job !! "input" = None -> outcome (job_get_input job c) = inr empty_input.
Proof. intros H. unfold job_get_input. now rewrite H. Qed.

(** What the [try] block raises, the handler returns as an error result. *)
Lemma handler_catches env job i c e :
  outcome (job_get_input job c) = inr i ->
  str_in (default default_language (language i)) available_langs = true ->
  outcome (synthesize_job env
             (default default_text (text i))
             (default default_language (language i))
             (default default_voice (voice i))
             (default default_speed (speed i))
             (default default_total_step (total_step i)) c) = inl e ->
  outcome (handler env job c) = inr (Error (exn_str e)).
Proof.
  intros Hi Hl He. rewrite (handler_on_read_input env job i c Hi). cbv zeta.
  rewrite Hl. cbn [negb]. rewrite outcome_try_catch. now rewrite He.
Qed.

(** C2 (amended): for a job whose input reads as the object [i] (the object
    under "input", or the empty one when the key is absent), the handler
    always returns a result and never raises.  An invalid language gives
    [{error: message}]; with a valid language, whatever exception the body
    of the [try] block raises is returned as [{error: str(e)}], and so in
    particular for missing artifacts, an unknown voice, a fault of either
    loader, a fault of the engine call, and a fault of the encoder. *)
Theorem handler_turns_failures_into_errors env job i c :
  outcome (job_get_input job c) = inr i ->
  let text := default default_text (text i) in
  let language := default default_language (language i) in
  let voice := default default_voice (voice i) in
  let speed := default default_speed (speed i) in
  let total_step := default default_total_step (total_step i) in
  let result := outcome (handler env job c) in
  (exists r, result = inr r)
  /\ (str_in language available_langs = false ->
        result = inr (Error (invalid_language_message language)))
  /\ (str_in language available_langs = true ->
        (forall e,
            outcome (synthesize_job env text language voice speed total_step c) = inl e ->
            result = inr (Error (exn_str e)))
        /\ (tts_model c = None -> missing_files env <> [] ->
              result = inr (Error ("Missing required model files: "
                                   ++ PyStr.repr_list (missing_files env))))
        /\ (forall e, outcome (load_model env c) = inl e ->
              result = inr (Error (exn_str e)))
        /\ (forall m listing,
              outcome (load_model env c) = inr m ->
              voice_styles c !! voice = None ->
              path_exists env (voice_path voice) = false ->
              listdir env VOICE_STYLES_DIR = inr listing ->
              result = inr (Error (unknown_voice_message voice listing)))
        /\ (forall m e,
              outcome (load_model env c) = inr m ->
              outcome (get_voice_style env voice (cache_after (load_model env c))) = inl e ->
              result = inr (Error (exn_str e)))
        /\ (forall m s e,
              outcome (load_model env c) = inr m ->
              outcome (get_voice_style env voice (cache_after (load_model env c))) = inr s ->
              synthesize env m text language s total_step speed = inl e ->
              result = inr (Error (exn_str e)))
        /\ (forall m s row rows d ds product n e,
              outcome (load_model env c) = inr m ->
              outcome (get_voice_style env voice (cache_after (load_model env c))) = inr s ->
              synthesize env m text language s total_step speed = inr (row :: rows, d :: ds) ->
              PyFloat.int_mul (sample_rate m) d = inr product ->
              PyFloat.to_int product = inr n ->
              sf_write env (slice_to n row) (sample_rate m) = inl e ->
              result = inr (Error (exn_str e)))).
Proof.
  intros Hi text language voice speed total_step result.
  pose proof (handler_on_read_input env job i c Hi) as Hrun. cbv zeta in Hrun.
  fold text language voice speed total_step in Hrun.
  assert (forall e,
            str_in language available_langs = true ->
            outcome (synthesize_job env text language voice speed total_step c) = inl e ->
            result = inr (Error (exn_str e))) as Hcaught.
  { intros e Hl He. now apply (handler_catches env job i c e Hi Hl). }
  split.
  { unfold result. rewrite Hrun. destruct (negb _); [eexists; reflexivity |].
    rewrite outcome_try_catch. eexists; reflexivity. }
  split.
  { intros Hl. unfold result. rewrite Hrun, Hl. reflexivity. }
  intros Hl.
  split; [intros e; now apply Hcaught |].
  split.
  { intros Hc Hm.
    apply (Hcaught (Exn FileNotFoundError _) Hl).
    apply synthesize_job_load_fails. now rewrite load_model_missing. }
  split.
  { intros e He. apply (Hcaught e Hl). now apply synthesize_job_load_fails. }
  split.
  { intros m listing Hm Hc Hp Hd.
    apply (Hcaught (Exn FileNotFoundError _) Hl).
    apply (synthesize_job_style_fails _ _ _ _ _ _ _ m _ Hm).
    rewrite get_voice_style_absent;
      [| now rewrite load_model_keeps_styles | assumption].
    now rewrite Hd. }
  split.
  { intros m e Hm He. apply (Hcaught e Hl).
    now apply (synthesize_job_style_fails _ _ _ _ _ _ _ m). }
  split.
  { intros m s e Hm Hs He. apply (Hcaught e Hl).
    now apply (synthesize_job_engine_fails _ _ _ _ _ _ _ m s). }
  intros m s row rows d ds product n e Hm Hs He Hp Hn Hw. apply (Hcaught e Hl).
  now apply (synthesize_job_encoding_fails _ _ _ _ _ _ _ m s row rows d ds product n).
Qed.

Lemma handler_turns_failures_into_errors_witness :
  outcome (job_get_input (Stub.job_of empty_input) initial_cache) = inr empty_input
  /\ outcome (handler Stub.no_vocoder_env (Stub.job_of empty_input) initial_cache) =
       inr (Error "Missing required model files: ['vocoder.onnx']")
  /\ outcome (handler Stub.faulty_engine_env (Stub.job_of empty_input) initial_cache) =
       inr (Error "inference failed").
Proof.
  assert (missing_files Stub.no_vocoder_env <> []) as Hm by (vm_compute; discriminate).
  destruct (handler_turns_failures_into_errors Stub.no_vocoder_env
              (Stub.job_of empty_input) empty_input initial_cache eq_refl)
    as (_ & _ & Hvalid).
  destruct (Hvalid eq_refl) as (_ & Hmissing & _).
  destruct (handler_turns_failures_into_errors Stub.faulty_engine_env
              (Stub.job_of empty_input) empty_input initial_cache eq_refl)
    as (_ & _ & Hvalid').
  destruct (Hvalid' eq_refl) as (_ & _ & _ & _ & _ & Hengine & _).
  split; [reflexivity |]. split.
  - exact (Hmissing eq_refl Hm).
  - exact (Hengine Stub.model Stub.style Stub.engine_fault eq_refl eq_refl eq_refl).
Defined.

(** C2, as stated, fails: the fields are read before the [try] block, so a
    job whose "input" is not an object makes the handler raise
    [AttributeError] instead of returning an error result. *)
Lemma handler_non_object_input_escapes :
  let job : gmap string JobValue := {[ "id" := JString "job-1"; "input" := JString "Hi" ]} in
  outcome (handler Stub.ready_env job initial_cache)
  = inl (Exn AttributeError "'str' object has no attribute 'get'")
  /\ ~ exists r, outcome (handler Stub.ready_env job initial_cache) = inr r.
Proof.
  cbv zeta. split; [reflexivity |]. intros (r & H). discriminate H.
Qed.

(** ** The language check *)

Lemma str_in_false x l : ~ In x l -> str_in x l = false.
Proof.
  intros H. unfold str_in. apply not_true_is_false. intros Hex.
  apply existsb_exists in Hex. destruct Hex as (y & Hy & Heq).
  apply String.eqb_eq in Heq. now subst.
Qed.

(** C3 (amended): when the language of a job is none of en, ko, es, pt, fr,
    the handler returns [{error: "Invalid language '<language>'. Available:
    ['en', 'ko', 'es', 'pt', 'fr']"}], the list being formatted as Python
    formats a list, with a comma and a space between the items; the run makes
    no external call at all (no existence check, no load, no engine call) and
    leaves the cache as it was.  For [{text: "Hi", language: "xx"}] the
    message is "Invalid language 'xx'. Available: ['en', 'ko', 'es', 'pt',
    'fr']". *)
Theorem handler_rejects_invalid_language env job i c :
  outcome (job_get_input job c) = inr i ->
  let language := default default_language (language i) in
  ~ In language ["en"; "ko"; "es"; "pt"; "fr"] ->
  handler env job c =
    (inr (Error ("Invalid language '" ++ language
                 ++ "'. Available: ['en', 'ko', 'es', 'pt', 'fr']")),
     c, [])
  /\ (language = "xx" ->
      outcome (handler env job c) =
        inr (Error "Invalid language 'xx'. Available: ['en', 'ko', 'es', 'pt', 'fr']")).
Proof.
  intros Hi language Hl.
  assert (handler env job c =
            (inr (Error ("Invalid language '" ++ language
                         ++ "'. Available: ['en', 'ko', 'es', 'pt', 'fr']")), c, [])) as H.
  { rewrite (handler_on_read_input env job i c Hi). cbv zeta. fold language.
    rewrite (str_in_false language available_langs Hl). reflexivity. }
  split; [exact H |]. intros Hxx. rewrite H. unfold outcome. cbn [fst]. now rewrite Hxx.
Qed.

Lemma handler_rejects_invalid_language_witness :
  let i := {| text := Some "Hi"; language := Some "xx"; voice := None;
              speed := None; total_step := None |} in
  outcome (job_get_input (Stub.job_of i) initial_cache) = inr i
  /\ ~ In "xx" ["en"; "ko"; "es"; "pt"; "fr"]
  /\ handler Stub.ready_env (Stub.job_of i) initial_cache =
       (inr (Error "Invalid language 'xx'. Available: ['en', 'ko', 'es', 'pt', 'fr']"),
        initial_cache, []).
Proof.
  intros i.
  assert (~ In "xx" ["en"; "ko"; "es"; "pt"; "fr"]) as Hl
    by (cbn; intros [H | [H | [H | [H | [H | []]]]]]; discriminate H).
  split; [reflexivity |]. split; [exact Hl |].
  exact (proj1 (handler_rejects_invalid_language Stub.ready_env (Stub.job_of i) i
                  initial_cache eq_refl Hl)).
Defined.

(** C3, as stated, fails on the exact message: for [{text: "Hi", language:
    "xx"}] the handler does not return the message written without spaces
    after the commas. *)
Lemma handler_invalid_language_message_differs :
  outcome (handler Stub.ready_env
             (Stub.job_of {| text := Some "Hi"; language := Some "xx"; voice := None;
                             speed := None; total_step := None |})
             initial_cache)
  <> inr (Error "Invalid language 'xx'. Available: ['en','ko','es','pt','fr']").
Proof. vm_compute. discriminate. Qed.

(** ** A missing styles directory *)

(** C10: when the engine is available, the requested voice is not cached,
    its style file does not exist and [os.listdir] of the styles directory
    raises [e] (for a missing directory, the operating system's
    [FileNotFoundError]), [get_voice_style] raises that very exception after
    the existence check and the directory scan, without changing the cache,
    and the handler returns [{error: str(e)}]: the message is the one of the
    operating system's error, and no list of available voices is built. *)
Theorem handler_reports_listdir_error env job i c m e :
  outcome (job_get_input job c) = inr i ->
  let language := default default_language (language i) in
  let voice := default default_voice (voice i) in
  str_in language available_langs = true ->
  outcome (load_model env c) = inr m ->
  voice_styles c !! voice = None ->
  path_exists env (voice_path voice) = false ->
  listdir env VOICE_STYLES_DIR = inl e ->
  let c1 := cache_after (load_model env c) in
  get_voice_style env voice c1 =
    (inl e, c1, [EvExists (voice_path voice); EvListdir VOICE_STYLES_DIR])
  /\ outcome (handler env job c) = inr (Error (exn_str e)).
Proof.
  intros Hi language voice Hl Hm Hc Hp Hd c1.
  assert (get_voice_style env voice c1 =
            (inl e, c1, [EvExists (voice_path voice); EvListdir VOICE_STYLES_DIR])) as Hg.
  { rewrite get_voice_style_absent;
      [| unfold c1; now rewrite load_model_keeps_styles | assumption].
    now rewrite Hd. }
  split; [exact Hg |].
  apply (handler_catches env job i c e Hi Hl).
  apply (synthesize_job_style_fails _ _ _ _ _ _ _ m _ Hm).
  fold voice c1. now rewrite Hg.
Qed.

Lemma handler_reports_listdir_error_witness :
  let e := Exn FileNotFoundError
             "[Errno 2] No such file or directory: 'assets/voice_styles'" in
  outcome (job_get_input (Stub.job_of empty_input) initial_cache) = inr empty_input
  /\ outcome (load_model Stub.no_styles_dir_env initial_cache) = inr Stub.model
  /\ path_exists Stub.no_styles_dir_env (voice_path "M1") = false
  /\ listdir Stub.no_styles_dir_env VOICE_STYLES_DIR = inl e
  /\ outcome (handler Stub.no_styles_dir_env (Stub.job_of empty_input) initial_cache) =
       inr (Error "[Errno 2] No such file or directory: 'assets/voice_styles'").
Proof.
  intros e.
  split; [reflexivity |]. split; [reflexivity |]. split; [reflexivity |].
  split; [reflexivity |].
  exact (proj2 (handler_reports_listdir_error Stub.no_styles_dir_env
                  (Stub.job_of empty_input) empty_input initial_cache Stub.model e
                  eq_refl eq_refl eq_refl eq_refl eq_refl eq_refl)).
Defined.

(** ** Trimming the waveform *)

Lemma slice_to_in_range {A} (n : Z) (row : list A) :
  0 <= n <= Z.of_nat (length row) ->
  slice_to n row = firstn (Z.to_nat n) row
  /\ Z.of_nat (length (slice_to n row)) = n.
Proof.
  intros Hn. unfold slice_to.
  destruct (Z.ltb_spec n 0) as [Hlt | _]; [lia |].
  rewrite Z.min_l by lia. split; [reflexivity |].
  rewrite length_firstn. lia.
Qed.

Lemma try_catch_success {A} (m : M A) h c a c1 t :
  try_catch m h c = (inr a, c1, t) ->
  (forall e c0, exists r t0, h e c0 = (inr r, c0, t0) /\ r <> a) ->
  m c = (inr a, c1, t).
Proof.
  unfold try_catch. destruct (m c) as [[[e | a'] c0] t0]; [| easy].
  intros H Hh. destruct (Hh e c0) as (r & t' & Heq & Hne).
  rewrite Heq in H. injection H as H _ _. congruence.
Qed.

(** What a successful run of the [try] block went through. *)
Lemma synthesize_job_success env text language voice speed total_step c r c' t :
  synthesize_job env text language voice speed total_step c = (inr r, c', t) ->
  exists m s row rows d ds n buffer t0,
    synthesize env m text language s total_step speed = inr (row :: rows, d :: ds)
    /\ trimmed_length (sample_rate m) d = inr n
    /\ sf_write env (slice_to n row) (sample_rate m) = inr buffer
    /\ r = Success (Base64.b64encode buffer) d (sample_rate m)
    /\ t = (t0 ++ [EvSynthesize m text language s total_step speed;
                   EvWrite (slice_to n row) (sample_rate m)])%list.
Proof.
  unfold synthesize_job. intros H.
  apply bind_inv in H as (m & c1 & t1 & u1 & _ & H & ->).
  apply bind_inv in H as (s & c2 & t2 & u2 & _ & H & ->).
  apply bind_inv in H as ([wav duration] & c3 & t3 & u3 & Hsyn & H & ->).
  apply bind_inv in H as (d & c4 & t4 & u4 & Hd & H & ->).
  apply bind_inv in H as (product & c5 & t5 & u5 & Hp & H & ->).
  apply bind_inv in H as (n & c6 & t6 & u6 & Hn & H & ->).
  apply bind_inv in H as (w & c7 & t7 & u7 & Hw & H & ->).
  apply bind_inv in H as (buffer & c8 & t8 & u8 & Hb & H & ->).
  unfold call in Hsyn, Hb. unfold lift, int_mul_float, py_int in Hp, Hn. unfold ret in H.
  injection Hsyn as Hsyn <- <-. injection Hp as Hp <- <-. injection Hn as Hn <- <-.
  injection Hb as Hb <- <-. injection H as <- <- <-.
  destruct duration as [| d' ds]; [discriminate |]. injection Hd as -> <- <-.
  destruct wav as [| row rows]; [discriminate |]. injection Hw as <- <- <-.
  exists m, s, row, rows, d, ds, n, buffer, (t1 ++ t2)%list.
  split; [exact Hsyn |].
  split; [unfold trimmed_length; now rewrite Hp |].
  split; [exact Hb |]. split; [reflexivity |].
  simpl. now rewrite <- app_assoc.
Qed.

(** C1 (amended): in every successful synthesis the waveform written to the
    audio container, whose base64 encoding is the response's audio, is the
    slice [row[:n]] of the first row the engine returned, where
    [n = int(sample_rate * duration)] is the product truncated toward zero;
    so for an engine that returns a row of [L] samples and a duration with
    [0 <= n <= L], the audio written has exactly [n] samples, the first [n]
    of the row. *)
Theorem handler_trims_to_truncated_length env job c audio d rate :
  outcome (handler env job c) = inr (Success audio d rate) ->
  exists m text language s total_step speed row rows ds n buffer t0,
    rate = sample_rate m
    /\ synthesize env m text language s total_step speed = inr (row :: rows, d :: ds)
    /\ trimmed_length rate d = inr n
    /\ trace (handler env job c) =
         (t0 ++ [EvSynthesize m text language s total_step speed;
                 EvWrite (slice_to n row) rate])%list
    /\ sf_write env (slice_to n row) rate = inr buffer
    /\ audio = Base64.b64encode buffer
    /\ (0 <= n <= Z.of_nat (length row) ->
        slice_to n row = firstn (Z.to_nat n) row
        /\ Z.of_nat (length (slice_to n row)) = n).
Proof.
  intros H.
  destruct (outcome (job_get_input job c)) as [e | i] eqn:Hi.
  { unfold handler in H. rewrite outcome_bind, Hi in H. discriminate. }
  rewrite (handler_on_read_input env job i c Hi) in H |- *. cbv zeta in H |- *.
  destruct (negb _); [discriminate |].
  match type of H with
  | outcome (try_catch ?m ?h c) = _ => destruct (try_catch m h c) as [[r c'] t] eqn:Hrun
  end.
  cbn in H. subst r.
  apply try_catch_success in Hrun.
  2:{ intros e c0. exists (Error (exn_str e)), []. split; [reflexivity | discriminate]. }
  destruct (synthesize_job_success _ _ _ _ _ _ _ _ _ _ Hrun)
    as (m & s & row & rows & d' & ds & n & buffer & t0 & Hsyn & Hn & Hb & Hr & Ht).
  injection Hr as -> -> ->.
  eexists m, _, _, s, _, _, row, rows, ds, n, buffer, t0.
  split; [reflexivity |]. split; [exact Hsyn |]. split; [exact Hn |].
  split; [exact Ht |]. split; [exact Hb |]. split; [reflexivity |].
  apply slice_to_in_range.
Qed.

Lemma handler_trims_to_truncated_length_witness :
  outcome (handler Stub.ready_env (Stub.job_of empty_input) initial_cache) =
    inr (Success (Base64.b64encode (repeat x00 93)) Stub.dur 24000)
  /\ exists n row t0 ev,
       trimmed_length 24000 Stub.dur = inr n
       /\ trace (handler Stub.ready_env (Stub.job_of empty_input) initial_cache) =
            (t0 ++ [ev; EvWrite (slice_to n row) 24000])%list.
Proof.
  assert (outcome (handler Stub.ready_env (Stub.job_of empty_input) initial_cache) =
            inr (Success (Base64.b64encode (repeat x00 93)) Stub.dur 24000)) as H
    by (vm_compute; reflexivity).
  split; [exact H |].
  destruct (handler_trims_to_truncated_length _ _ _ _ _ _ H)
    as (m & text & language & s & total_step & speed & row & rows & ds & n & buffer & t0
        & _ & _ & Hn & Ht & _).
  exists n, row, t0, (EvSynthesize m text language s total_step speed).
  split; [exact Hn | exact Ht].
Defined.

(** C1, as stated, fails: at sample rate 24000 with a duration of 1/256 s
    the product is 93.75, which rounds to 94, and the engine's row has 100
    samples, yet the handler writes, and returns, 93 samples. *)
Lemma handler_trim_is_not_rounding :
  let run := handler Stub.ready_env (Stub.job_of empty_input) initial_cache in
  Stub.wav100 = [repeat Stub.zero 100]
  /\ spec_trimmed_length 24000 Stub.dur = inr 94
  /\ trimmed_length 24000 Stub.dur = inr 93
  /\ outcome run = inr (Success (Base64.b64encode (repeat x00 93)) Stub.dur 24000)
  /\ trace run =
       (exists_checks ++
        [EvLoadModel ONNX_DIR false;
         EvExists (voice_path "M1");
         EvLoadStyle [voice_path "M1"];
         EvSynthesize Stub.model "Hello, this is a test." "en" Stub.style 5
           (NFloat float_1_05);
         EvWrite (repeat Stub.zero 93) 24000])%list
  /\ length (repeat Stub.zero 93) <> 94%nat.
Proof.
  cbv zeta. repeat split; try (vm_compute; reflexivity).
  rewrite repeat_length. discriminate.
Qed.

(** ** The list of available voices *)

Lemma endswith_app v suffix : PyStr.endswith (v ++ suffix) suffix = true.
Proof.
  induction v as [| c v IH].
  - change ("" ++ suffix) with suffix.
    destruct suffix; cbn [PyStr.endswith]; now rewrite String.eqb_refl.
  - rewrite str_app_cons. cbn [PyStr.endswith]. rewrite IH. apply orb_true_r.
Qed.

Lemma endswith_inv s suffix :
  PyStr.endswith s suffix = true -> exists v, s = v ++ suffix.
Proof.
  induction s as [| c s IH]; cbn [PyStr.endswith]; intros H;
    apply orb_true_iff in H as [H | H].
  - apply String.eqb_eq in H as <-. now exists "".
  - discriminate.
  - apply String.eqb_eq in H as <-. now exists "".
  - destruct (IH H) as (v & ->). now exists (String c v).
Qed.

Lemma prefix_inv p s : String.prefix p s = true -> exists t, s = p ++ t.
Proof.
  revert s. induction p as [| a p IH]; intros s H.
  - now exists s.
  - destruct s as [| b s]; [discriminate |]. cbn in H.
    destruct (ascii_dec a b) as [<- | _]; [| discriminate].
    destruct (IH s H) as (t & ->). now exists t.
Qed.

(** [".json"] cannot begin inside a name and end inside its extension. *)
Lemma json_prefix_within c v :
  String.prefix ".json" (String c v ++ ".json") = true -> occurs_in ".json" (String c v).
Proof.
  intros H. apply prefix_inv in H as (t & H).
  destruct v as [| c2 [| c3 [| c4 [| c5 v]]]];
    rewrite ?str_app_cons in H; try (injection H; intros; subst; discriminate).
  change (".json" ++ t) with (String "." (String "j" (String "s" (String "o" (String "n" t))))) in H.
  injection H as -> -> -> -> -> _. exists "", v. reflexivity.
Qed.

Lemma occurs_in_tail s c v : occurs_in s v -> occurs_in s (String c v).
Proof. intros (pre & post & ->). now exists (String c pre), post. Qed.

(** Removing [".json"] from a name that holds it only as its extension
    yields the name without the extension. *)
Lemma replace_extension v :
  ~ occurs_in ".json" v -> PyStr.replace ".json" "" (v ++ ".json") = v.
Proof.
  unfold PyStr.replace. induction v as [| c v IH]; intros Hv; [reflexivity |].
  rewrite str_app_cons. cbn [PyStr.replace_go]. rewrite <- str_app_cons.
  destruct (String.prefix ".json" (String c v ++ ".json")) eqn:Hp.
  - destruct Hv. now apply json_prefix_within.
  - f_equal. apply IH. intros Hocc. apply Hv. now apply occurs_in_tail.
Qed.

Lemma available_voices_in listing x :
  In x (available_voices listing) <->
  exists f, In f listing /\ PyStr.endswith f ".json" = true
            /\ x = PyStr.replace ".json" "" f.
Proof.
  unfold available_voices. rewrite in_map_iff. split.
  - intros (f & <- & Hf). apply filter_In in Hf as [Hin He]. now exists f.
  - intros (f & Hin & He & ->). exists f. split; [reflexivity |].
    apply filter_In. now split.
Qed.

Lemma available_voices_exact listing :
  (forall v, In (v ++ ".json") listing -> ~ occurs_in ".json" v) ->
  forall x, In x (available_voices listing) <-> voices_with_style_file listing x.
Proof.
  intros Hclean x. unfold voices_with_style_file. rewrite available_voices_in. split.
  - intros (f & Hin & He & ->). apply endswith_inv in He as (v & ->).
    rewrite replace_extension by now apply Hclean. exact Hin.
  - intros Hin. exists (x ++ ".json"). split; [exact Hin |].
    split; [apply endswith_app |].
    symmetry. apply replace_extension. now apply Hclean.
Qed.

(** C5 (amended): for a voice that is not cached and whose style file does
    not exist, when the styles directory can be listed, [get_voice_style]
    raises [FileNotFoundError] with the message "Voice style '<voice>' not
    found. Available: <list>", after the existence check and the scan of the
    directory; the list holds, for every listed name that ends in ".json",
    that name without its ".json", each of them quoted in the message; when
    no listed name holds ".json" before its extension, the listed
    identifiers are exactly the voices whose style file is in the directory;
    and the cache is unchanged, so nothing is cached for the voice. *)
Theorem get_voice_style_lists_available env v c listing :
  voice_styles c !! v = None ->
  path_exists env (voice_path v) = false ->
  listdir env VOICE_STYLES_DIR = inr listing ->
  let msg := "Voice style '" ++ v ++ "' not found. Available: "
             ++ PyStr.repr_list (available_voices listing) in
  get_voice_style env v c =
    (inl (Exn FileNotFoundError msg), c,
     [EvExists (voice_path v); EvListdir VOICE_STYLES_DIR])
  /\ voice_styles (cache_after (get_voice_style env v c)) !! v = None
  /\ (forall x, In x (available_voices listing) -> occurs_in (PyStr.repr x) msg)
  /\ ((forall x, In (x ++ ".json") listing -> ~ occurs_in ".json" x) ->
      forall x, In x (available_voices listing) <-> voices_with_style_file listing x).
Proof.
  intros Hc Hp Hd msg.
  assert (get_voice_style env v c =
            (inl (Exn FileNotFoundError msg), c,
             [EvExists (voice_path v); EvListdir VOICE_STYLES_DIR])) as Hrun.
  { rewrite (get_voice_style_absent env v c Hc Hp). now rewrite Hd. }
  split; [exact Hrun |]. rewrite Hrun. split; [exact Hc |].
  split.
  - intros x Hx. unfold msg.
    now apply occurs_in_app_l, occurs_in_app_l, occurs_in_app_l, repr_list_mentions.
  - apply available_voices_exact.
Qed.

Lemma get_voice_style_lists_available_witness :
  let env := Stub.env Stub.onnx_paths (Some ["M2.json"; "F1.json"; "notes.txt"])
               Stub.wav100 [Stub.dur] in
  voice_styles initial_cache !! "M1" = None
  /\ path_exists env (voice_path "M1") = false
  /\ (forall x, In (x ++ ".json") ["M2.json"; "F1.json"; "notes.txt"] ->
        ~ occurs_in ".json" x)
  /\ get_voice_style env "M1" initial_cache =
       (inl (Exn FileNotFoundError
               "Voice style 'M1' not found. Available: ['M2', 'F1']"),
        initial_cache,
        [EvExists "assets/voice_styles/M1.json"; EvListdir "assets/voice_styles"])
  /\ (forall x, In x ["M2"; "F1"] <->
        voices_with_style_file ["M2.json"; "F1.json"; "notes.txt"] x).
Proof.
  intros env.
  assert (forall x, In (x ++ ".json") ["M2.json"; "F1.json"; "notes.txt"] ->
            ~ occurs_in ".json" x) as Hclean.
  { intros x Hin (pre & post & ->).
    assert (String.length ((pre ++ ".json" ++ post) ++ ".json") <= 9)%nat as Hlen.
    { destruct Hin as [H | [H | [H | []]]]; rewrite <- H; cbn; lia. }
    assert (forall a b, String.length (a ++ b) = (String.length a + String.length b)%nat)
      as Happ.
    { induction a as [| ch a IH]; intros b; [reflexivity |].
      rewrite str_app_cons. cbn. now rewrite IH. }
    rewrite !Happ in Hlen. cbn in Hlen. lia. }
  destruct (get_voice_style_lists_available env "M1" initial_cache
              ["M2.json"; "F1.json"; "notes.txt"] eq_refl eq_refl eq_refl)
    as (Hrun & _ & _ & Hexact).
  split; [reflexivity |]. split; [reflexivity |]. split; [exact Hclean |].
  split; [exact Hrun |]. exact (Hexact Hclean).
Defined.

(** C5, as stated, fails in three ways.  A cached voice is returned even if
    its file is gone; when the styles directory is missing the error is the
    one of [os.listdir], with no list of voices; and a file [F1.json.json]
    is listed as voice [F1], which has no style file, while the voice
    [F1.json], which has one, is not listed. *)
Lemma get_voice_style_not_always_exact :
  (path_exists Stub.no_styles_dir_env (voice_path "M1") = false
   /\ outcome (get_voice_style Stub.no_styles_dir_env "M1"
                 (cache_after (get_voice_style Stub.ready_env "M1" initial_cache))) =
        inr Stub.style)
  /\ (path_exists Stub.no_styles_dir_env (voice_path "M1") = false
      /\ outcome (get_voice_style Stub.no_styles_dir_env "M1" initial_cache) =
           inl (Exn FileNotFoundError
                  "[Errno 2] No such file or directory: 'assets/voice_styles'"))
  /\ (path_exists Stub.odd_names_env (voice_path "M1") = false
      /\ outcome (get_voice_style Stub.odd_names_env "M1" initial_cache) =
           inl (Exn FileNotFoundError
                  "Voice style 'M1' not found. Available: ['M2', 'F1']")
      /\ ~ voices_with_style_file ["M2.json"; "F1.json.json"] "F1"
      /\ voices_with_style_file ["M2.json"; "F1.json.json"] "F1.json"
      /\ ~ In "F1.json" (available_voices ["M2.json"; "F1.json.json"])).
Proof.
  repeat split; try (vm_compute; reflexivity).
  - unfold voices_with_style_file. cbn. intros [H | [H | []]]; discriminate H.
  - unfold voices_with_style_file. cbn. now right; left.
  - vm_compute. intros [H | [H | []]]; discriminate H.
Qed.

(** ** The shape of a run *)

Lemma trace_bind {A B} (m : M A) (k : A -> M B) c :
  trace (bind m k c) =
    match outcome (m c) with
    | inl _ => trace (m c)
    | inr a => (trace (m c) ++ trace (k a (cache_after (m c))))%list
    end.
Proof.
  unfold bind, outcome, cache_after, trace.
  destruct (m c) as [[[e | a] c1] t1]; cbn; [reflexivity |].
  now destruct (k a c1) as [[r c2] t2].
Qed.

Lemma cache_after_bind {A B} (m : M A) (k : A -> M B) c :
  cache_after (bind m k c) =
    match outcome (m c) with
    | inl _ => cache_after (m c)
    | inr a => cache_after (k a (cache_after (m c)))
    end.
Proof.
  unfold bind, outcome, cache_after.
  destruct (m c) as [[[e | a] c1] t1]; cbn; [reflexivity |].
  now destruct (k a c1) as [[r c2] t2].
Qed.

Lemma trace_try_catch {A} (m : M A) (f : exn -> A) c :
  trace (try_catch m (fun e => ret (f e)) c) = trace (m c).
Proof.
  unfold try_catch, trace, ret. destruct (m c) as [[[e | a] c1] t1]; cbn;
    [apply app_nil_r | reflexivity].
Qed.

Lemma cache_after_try_catch {A} (m : M A) (f : exn -> A) c :
  cache_after (try_catch m (fun e => ret (f e)) c) = cache_after (m c).
Proof.
  unfold try_catch, cache_after, ret. now destruct (m c) as [[[e | a] c1] t1].
Qed.

Ltac run_step :=
  cbv beta iota delta
    [bind ret lift call raise first_item row0_slice_to int_mul_float py_int].

(** The part of the [try] block after the engine and the style are known:
    its cache is the one it started from, and its calls are the engine call,
    followed by the encoder call if the run got that far. *)
Lemma synthesize_job_tail env text language voice speed total_step c m s :
  outcome (load_model env c) = inr m ->
  outcome (get_voice_style env voice (cache_after (load_model env c))) = inr s ->
  let run := synthesize_job env text language voice speed total_step c in
  let ev := EvSynthesize m text language s total_step speed in
  cache_after run = cache_after (get_voice_style env voice (cache_after (load_model env c)))
  /\ exists tail,
       trace run =
         (trace (load_model env c)
          ++ trace (get_voice_style env voice (cache_after (load_model env c)))
          ++ tail)%list
       /\ ((tail = [ev] /\ exists e, outcome run = inl e)
           \/ exists data, tail = [ev; EvWrite data (sample_rate m)]).
Proof.
  intros Hm Hs run ev. unfold run, synthesize_job.
  unfold outcome, cache_after, trace in *. run_step.
  destruct (load_model env c) as [[[e | m'] c1] t1]; cbn [fst snd] in *; [discriminate |].
  injection Hm as ->.
  destruct (get_voice_style env voice c1) as [[[e | s'] c2] t2]; cbn [fst snd] in *;
    [discriminate |].
  injection Hs as ->.
  destruct (synthesize env m text language s total_step speed) as [e | [wav duration]].
  { split; [reflexivity |]. exists [ev]. split; [reflexivity |]. left. eauto. }
  destruct duration as [| d ds]; run_step.
  { split; [reflexivity |]. exists [ev]. split; [reflexivity |]. left. eauto. }
  destruct (PyFloat.int_mul (sample_rate m) d) as [e | product]; run_step.
  { split; [reflexivity |]. exists [ev]. split; [reflexivity |]. left. eauto. }
  destruct (PyFloat.to_int product) as [e | n]; run_step.
  { split; [reflexivity |]. exists [ev]. split; [reflexivity |]. left. eauto. }
  destruct wav as [| row rows]; run_step.
  { split; [reflexivity |]. exists [ev]. split; [reflexivity |]. left. eauto. }
  destruct (sf_write env (slice_to n row) (sample_rate m)) as [e | buffer];
    (split; [reflexivity |]); exists [ev; EvWrite (slice_to n row) (sample_rate m)];
    (split; [reflexivity |]); right; eauto.
Qed.

Lemma synthesize_job_load_fails_run env text language voice speed total_step c e :
  outcome (load_model env c) = inl e ->
  synthesize_job env text language voice speed total_step c =
    (inl e, cache_after (load_model env c), trace (load_model env c)).
Proof.
  intros H. unfold synthesize_job, bind, outcome, cache_after, trace in *.
  destruct (load_model env c) as [[[e' | m] c1] t1]; cbn [fst snd] in *; congruence.
Qed.

Lemma synthesize_job_style_fails_run env text language voice speed total_step c m e :
  outcome (load_model env c) = inr m ->
  outcome (get_voice_style env voice (cache_after (load_model env c))) = inl e ->
  synthesize_job env text language voice speed total_step c =
    (inl e,
     cache_after (get_voice_style env voice (cache_after (load_model env c))),
     (trace (load_model env c)
      ++ trace (get_voice_style env voice (cache_after (load_model env c))))%list).
Proof.
  intros Hm Hs. unfold synthesize_job, bind, outcome, cache_after, trace in *.
  destruct (load_model env c) as [[[e' | m'] c1] t1]; cbn [fst snd] in *; [discriminate |].
  destruct (get_voice_style env voice c1) as [[[e' | s] c2] t2]; cbn [fst snd] in *;
    congruence.
Qed.

(** The calls of the two cache operations are file-system and loader calls. *)
Lemma quiet_app t1 t2 : quiet t1 -> quiet t2 -> quiet (t1 ++ t2).
Proof. unfold quiet. rewrite forallb_app. now intros -> ->. Qed.

Lemma exists_checks_quiet : quiet exists_checks.
Proof. reflexivity. Qed.

Lemma load_model_quiet env c : quiet (trace (load_model env c)).
Proof.
  destruct (tts_model c) as [m |] eqn:Hc.
  - now rewrite (load_model_cached env c m Hc).
  - destruct (missing_files env) as [| f l] eqn:Hm.
    + rewrite (load_model_cold env c Hc Hm).
      destruct (load_text_to_speech env ONNX_DIR false); reflexivity.
    + rewrite load_model_missing; [reflexivity | assumption | congruence].
Qed.

Lemma get_voice_style_quiet env v c : quiet (trace (get_voice_style env v c)).
Proof.
  destruct (voice_styles c !! v) as [s |] eqn:Hc.
  - now rewrite (get_voice_style_cached env v c s Hc).
  - destruct (path_exists env (voice_path v)) eqn:Hp.
    + rewrite (get_voice_style_present env v c Hc Hp).
      destruct (load_voice_style env [voice_path v]); reflexivity.
    + now rewrite (get_voice_style_absent env v c Hc Hp).
Qed.


Lemma handler_run_valid env job i c :
  outcome (job_get_input job c) = inr i ->
  str_in (default default_language (language i)) available_langs = true ->
  let run :=
    synthesize_job env
      (default default_text (text i))
      (default default_language (language i))
      (default default_voice (voice i))
      (default default_speed (speed i))
      (default default_total_step (total_step i)) c in
  trace (handler env job c) = trace run
  /\ cache_after (handler env job c) = cache_after run
  /\ outcome (handler env job c) =
       inr match outcome run with inl e => Error (exn_str e) | inr r => r end.
Proof.
  intros Hi Hl run. rewrite (handler_on_read_input env job i c Hi). cbv zeta.
  rewrite Hl. cbn [negb].
  rewrite trace_try_catch, cache_after_try_catch, outcome_try_catch. now fold run.
Qed.

Lemma handler_run_invalid env job i c :
  outcome (job_get_input job c) = inr i ->
  str_in (default default_language (language i)) available_langs = false ->
  handler env job c =
    (inr (Error (invalid_language_message (default default_language (language i)))), c, []).
Proof.
  intros Hi Hl. rewrite (handler_on_read_input env job i c Hi). cbv zeta.
  now rewrite Hl.
Qed.

Lemma handler_run_bad_input env job c e :
  outcome (job_get_input job c) = inl e ->
  handler env job c = (inl e, c, [])
  /\ e = Exn AttributeError "'str' object has no attribute 'get'"
  /\ exists s, job !! "input" = Some (JString s).
Proof.
  unfold handler, bind, job_get_input, outcome.
  destruct (job !! "input") as [[s | o] |]; cbn; try discriminate.
  intros [= <-]. repeat split. now exists s.
Qed.

(** What a returning run of the [try] block went through, stage by stage. *)
Lemma synthesize_job_success_run env text language voice speed total_step c r :
  outcome (synthesize_job env text language voice speed total_step c) = inr r ->
  exists m s row rows d ds n buffer,
    outcome (load_model env c) = inr m
    /\ outcome (get_voice_style env voice (cache_after (load_model env c))) = inr s
    /\ synthesize env m text language s total_step speed = inr (row :: rows, d :: ds)
    /\ trimmed_length (sample_rate m) d = inr n
    /\ sf_write env (slice_to n row) (sample_rate m) = inr buffer
    /\ r = Success (Base64.b64encode buffer) d (sample_rate m)
    /\ trace (synthesize_job env text language voice speed total_step c) =
         (trace (load_model env c)
          ++ trace (get_voice_style env voice (cache_after (load_model env c)))
          ++ [EvSynthesize m text language s total_step speed;
              EvWrite (slice_to n row) (sample_rate m)])%list
    /\ cache_after (synthesize_job env text language voice speed total_step c) =
         cache_after (get_voice_style env voice (cache_after (load_model env c))).
Proof.
  unfold synthesize_job, trimmed_length. unfold outcome, cache_after, trace. run_step.
  destruct (load_model env c) as [[[e | m] c1] t1]; cbn [fst snd]; [discriminate |].
  destruct (get_voice_style env voice c1) as [[[e | s] c2] t2]; cbn [fst snd];
    [discriminate |].
  destruct (synthesize env m text language s total_step speed) as [e | [wav duration]] eqn:Hsyn;
    [discriminate |].
  destruct duration as [| d ds]; run_step; [discriminate |].
  destruct (PyFloat.int_mul (sample_rate m) d) as [e | product] eqn:Hp; run_step;
    [discriminate |].
  destruct (PyFloat.to_int product) as [e | n] eqn:Hn; run_step; [discriminate |].
  destruct wav as [| row rows]; run_step; [discriminate |].
  destruct (sf_write env (slice_to n row) (sample_rate m)) as [e | buffer] eqn:Hw;
    cbn [fst snd]; [discriminate |].
  intros [= <-]. exists m, s, row, rows, d, ds, n, buffer.
  rewrite Hp. repeat split; try reflexivity; assumption.
Qed.

(** With the engine and the voice cached, a job makes engine and encoder
    calls only, and leaves the cache as it is. *)
Lemma handler_fully_warm env job i c m s :
  outcome (job_get_input job c) = inr i ->
  str_in (default default_language (language i)) available_langs = true ->
  tts_model c = Some m ->
  voice_styles c !! default default_voice (voice i) = Some s ->
  forallb engine_event (trace (handler env job c)) = true
  /\ cache_after (handler env job c) = c.
Proof.
  intros Hi Hl Hc Hv.
  destruct (handler_run_valid env job i c Hi Hl) as (Ht & Hca & _). rewrite Ht, Hca.
  pose proof (load_model_cached env c m Hc) as Hlm.
  pose proof (get_voice_style_cached env (default default_voice (voice i)) c s Hv) as Hgv.
  destruct (synthesize_job_tail env
              (default default_text (text i)) (default default_language (language i))
              (default default_voice (voice i)) (default default_speed (speed i))
              (default default_total_step (total_step i)) c m s)
    as (Hcache & tail & Htrace & Htail).
  { now rewrite Hlm. }
  { rewrite Hlm. cbn [cache_after fst snd]. now rewrite Hgv. }
  rewrite Hcache, Htrace, Hlm. cbn [cache_after trace fst snd]. rewrite Hgv.
  cbn [cache_after trace fst snd app]. split; [| reflexivity].
  destruct Htail as [[-> _] | [data ->]]; reflexivity.
Qed.

(** The run of the [try] block once the engine has returned: the outcome
    and the calls, by what the engine returned. *)
Lemma synthesize_job_after_engine env text language voice speed total_step c m s
    wav duration :
  outcome (load_model env c) = inr m ->
  outcome (get_voice_style env voice (cache_after (load_model env c))) = inr s ->
  synthesize env m text language s total_step speed = inr (wav, duration) ->
  let run := synthesize_job env text language voice speed total_step c in
  let ev := EvSynthesize m text language s total_step speed in
  let pre := (trace (load_model env c)
              ++ trace (get_voice_style env voice (cache_after (load_model env c))))%list in
  let index_error := Exn IndexError "index 0 is out of bounds for axis 0 with size 0" in
  (outcome run, trace run) =
    match duration with
    | [] => (inl index_error, (pre ++ [ev])%list)
    | d :: _ =>
        match trimmed_length (sample_rate m) d with
        | inl e => (inl e, (pre ++ [ev])%list)
        | inr n =>
            match wav with
            | [] => (inl index_error, (pre ++ [ev])%list)
            | row :: _ =>
                (match sf_write env (slice_to n row) (sample_rate m) with
                 | inl e => inl e
                 | inr buffer =>
                     inr (Success (Base64.b64encode buffer) d (sample_rate m))
                 end,
                 (pre ++ [ev; EvWrite (slice_to n row) (sample_rate m)])%list)
            end
        end
    end.
Proof.
  intros Hm Hs Hsyn run ev pre index_error.
  unfold run, pre, synthesize_job, trimmed_length.
  unfold outcome, cache_after, trace in *. run_step.
  destruct (load_model env c) as [[[e | m'] c1] t1]; cbn [fst snd] in *; [discriminate |].
  injection Hm as ->.
  destruct (get_voice_style env voice c1) as [[[e | s'] c2] t2]; cbn [fst snd] in *;
    [discriminate |].
  injection Hs as ->. rewrite Hsyn.
  destruct duration as [| d ds]; run_step; cbn [fst snd].
  { now rewrite <- app_assoc. }
  destruct (PyFloat.int_mul (sample_rate m) d) as [e | product]; run_step; cbn [fst snd].
  { now rewrite <- app_assoc. }
  destruct (PyFloat.to_int product) as [e | n]; run_step; cbn [fst snd].
  { now rewrite <- app_assoc. }
  destruct wav as [| row rows]; run_step; cbn [fst snd].
  { now rewrite <- app_assoc. }
  destruct (sf_write env (slice_to n row) (sample_rate m)) as [e | buffer];
    cbn [fst snd]; now rewrite <- app_assoc.
Qed.

(** Every call of a run of [load_model]. *)
Lemma load_model_trace_in env c ev :
  In ev (trace (load_model env c)) ->
  tts_model c = None
  /\ ((exists f, In f required_files /\ ev = EvExists (os_path_join ONNX_DIR f))
      \/ (ev = EvLoadModel ONNX_DIR false /\ missing_files env = [])).
Proof.
  destruct (tts_model c) as [m |] eqn:Hc.
  { rewrite (load_model_cached env c m Hc). intros []. }
  intros Hin. split; [reflexivity |].
  assert (In ev exists_checks ->
          exists f, In f required_files /\ ev = EvExists (os_path_join ONNX_DIR f)) as Hchecks.
  { unfold exists_checks. rewrite in_map_iff. intros (f & <- & Hf). now exists f. }
  destruct (missing_files env) as [| f l] eqn:Hm.
  - rewrite (load_model_cold env c Hc Hm) in Hin.
    assert (In ev (exists_checks ++ [EvLoadModel ONNX_DIR false])) as Hin'
      by (destruct (load_text_to_speech env ONNX_DIR false); exact Hin).
    apply in_app_or in Hin' as [Hin' | [<- | []]]; [left; auto | right; auto].
  - rewrite load_model_missing in Hin; [| assumption | congruence]. left. auto.
Qed.

(** Every call of a run of [get_voice_style]. *)
Lemma get_voice_style_trace_in env v c ev :
  In ev (trace (get_voice_style env v c)) ->
  voice_styles c !! v = None
  /\ (ev = EvExists (voice_path v)
      \/ (ev = EvListdir VOICE_STYLES_DIR /\ path_exists env (voice_path v) = false)
      \/ (ev = EvLoadStyle [voice_path v] /\ path_exists env (voice_path v) = true)).
Proof.
  destruct (voice_styles c !! v) as [s |] eqn:Hc.
  { rewrite (get_voice_style_cached env v c s Hc). intros []. }
  intros Hin. split; [reflexivity |].
  destruct (path_exists env (voice_path v)) eqn:Hp.
  - rewrite (get_voice_style_present env v c Hc Hp) in Hin.
    assert (In ev [EvExists (voice_path v); EvLoadStyle [voice_path v]]) as Hin'
      by (destruct (load_voice_style env [voice_path v]); exact Hin).
    destruct Hin' as [<- | [<- | []]]; auto.
  - rewrite (get_voice_style_absent env v c Hc Hp) in Hin.
    destruct Hin as [<- | [<- | []]]; auto.
Qed.

(** Every call of a run of the [try] block. *)
Lemma synthesize_job_trace_in env text language voice speed total_step c ev :
  In ev (trace (synthesize_job env text language voice speed total_step c)) ->
  In ev (trace (load_model env c))
  \/ In ev (trace (get_voice_style env voice (cache_after (load_model env c))))
  \/ engine_event ev = true.
Proof.
  destruct (outcome (load_model env c)) as [e | m] eqn:Hm.
  { rewrite (synthesize_job_load_fails_run _ _ _ _ _ _ _ e Hm). now left. }
  destruct (outcome (get_voice_style env voice (cache_after (load_model env c))))
    as [e | s] eqn:Hs.
  { rewrite (synthesize_job_style_fails_run _ _ _ _ _ _ _ m e Hm Hs). cbn [trace snd].
    intros Hin. apply in_app_or in Hin as [Hin | Hin]; auto. }
  destruct (synthesize_job_tail env text language voice speed total_step c m s Hm Hs)
    as (_ & tail & -> & Htail).
  intros Hin. apply in_app_or in Hin as [Hin | Hin]; [now left |].
  apply in_app_or in Hin as [Hin | Hin]; [right; now left |].
  right; right.
  destruct Htail as [[-> _] | [data ->]]; cbn in Hin;
    repeat (destruct Hin as [<- | Hin]; [reflexivity |]); destruct Hin.
Qed.

(** ** Further properties of the handler *)

(** X1: the only exception that leaves the handler is the [AttributeError]
    raised when the value under "input" is not an object; it is raised
    before anything else happens: no external call is made and the cache is
    unchanged. *)
Theorem handler_raises_only_on_non_object_input env job c e :
  outcome (handler env job c) = inl e ->
  (exists s, job !! "input" = Some (JString s))
  /\ e = Exn AttributeError "'str' object has no attribute 'get'"
  /\ handler env job c = (inl e, c, []).
Proof.
  intros H. destruct (outcome (job_get_input job c)) as [e' | i] eqn:Hi.
  - destruct (handler_run_bad_input env job c e' Hi) as (Hrun & He & Hs).
    rewrite Hrun in H. cbn in H. injection H as <-. now rewrite Hrun.
  - destruct (str_in (default default_language (language i)) available_langs) eqn:Hl.
    + destruct (handler_run_valid env job i c Hi Hl) as (_ & _ & Ho).
      rewrite Ho in H. discriminate.
    + rewrite (handler_run_invalid env job i c Hi Hl) in H. discriminate.
Qed.

Lemma handler_raises_only_on_non_object_input_witness :
  let job : gmap string JobValue := {[ "input" := JString "Hi" ]} in
  outcome (handler Stub.ready_env job initial_cache) =
    inl (Exn AttributeError "'str' object has no attribute 'get'")
  /\ handler Stub.ready_env job initial_cache =
       (inl (Exn AttributeError "'str' object has no attribute 'get'"), initial_cache, []).
Proof.
  intros job.
  assert (outcome (handler Stub.ready_env job initial_cache) =
            inl (Exn AttributeError "'str' object has no attribute 'get'")) as H
    by reflexivity.
  split; [exact H |].
  exact (proj2 (proj2 (handler_raises_only_on_non_object_input _ _ _ _ H))).
Defined.

(** X2: once the engine is cached, a job with a valid language never checks
    the model files and never calls the model loader, whatever the
    environment: its calls are those of [get_voice_style] for the job's
    voice, followed only by the engine and encoder calls, and the handle
    stays cached.  When the voice is cached as well, the job makes no
    file-system or loader call at all and leaves the cache as it is. *)
Theorem handler_with_cached_engine_skips_model_files env job i c m :
  outcome (job_get_input job c) = inr i ->
  let language := default default_language (language i) in
  let voice := default default_voice (voice i) in
  str_in language available_langs = true ->
  tts_model c = Some m ->
  exists tail,
    trace (handler env job c) = (trace (get_voice_style env voice c) ++ tail)%list
    /\ forallb engine_event tail = true
    /\ tts_model (cache_after (handler env job c)) = Some m
    /\ (forall s, voice_styles c !! voice = Some s ->
          trace (handler env job c) = tail /\ cache_after (handler env job c) = c).
Proof.
  intros Hi language voice Hl Hc.
  destruct (handler_run_valid env job i c Hi Hl) as (Ht & Hca & _).
  fold language voice in Ht, Hca.
  pose proof (load_model_cached env c m Hc) as Hlm.
  assert (tts_model (cache_after (handler env job c)) = Some m) as Hkeep
    by now apply (handler_monotone env job c).
  set (text := default default_text (text i)) in *.
  set (speed := default default_speed (speed i)) in *.
  set (total_step := default default_total_step (total_step i)) in *.
  assert (exists tail,
            trace (handler env job c) = (trace (get_voice_style env voice c) ++ tail)%list
            /\ forallb engine_event tail = true
            /\ cache_after (handler env job c) = cache_after (get_voice_style env voice c))
    as (tail & Htrace & Htail & Hcache).
  { rewrite Ht, Hca.
    destruct (outcome (get_voice_style env voice c)) as [e | s] eqn:Hs.
    - rewrite (synthesize_job_style_fails_run env text language voice speed total_step c m e);
        rewrite ?Hlm; try assumption; try reflexivity.
      exists []. cbn. now rewrite app_nil_r.
    - destruct (synthesize_job_tail env text language voice speed total_step c m s)
        as (Hcache & tail & Htrace & Htail); rewrite ?Hlm; try assumption; try reflexivity.
      rewrite Hlm in Hcache, Htrace. cbn in Hcache, Htrace.
      exists tail. split; [exact Htrace |]. split; [| exact Hcache].
      destruct Htail as [[-> _] | [data ->]]; reflexivity. }
  exists tail. split; [exact Htrace |]. split; [exact Htail |]. split; [exact Hkeep |].
  intros s Hs. rewrite Htrace, Hcache.
  now rewrite (get_voice_style_cached env voice c s Hs).
Qed.

Lemma handler_with_cached_engine_skips_model_files_witness :
  let job := Scenario.job_for_voice "M1" in
  let i := {| text := Some "Hi"; language := Some "en"; voice := Some "M1";
              speed := None; total_step := None |} in
  outcome (job_get_input job Scenario.warm_cache) = inr i
  /\ tts_model Scenario.warm_cache = Some Stub.model
  /\ path_exists Scenario.bare_env (os_path_join ONNX_DIR "vocoder.onnx") = false
  /\ forallb engine_event (trace (handler Scenario.bare_env job Scenario.warm_cache)) = true
  /\ cache_after (handler Scenario.bare_env job Scenario.warm_cache) = Scenario.warm_cache.
Proof.
  intros job i.
  destruct (handler_with_cached_engine_skips_model_files Scenario.bare_env job i
              Scenario.warm_cache Stub.model eq_refl eq_refl eq_refl)
    as (tail & _ & Htail & _ & Hwarm).
  destruct (Hwarm Stub.style eq_refl) as [Htrace Hcache].
  split; [reflexivity |]. split; [reflexivity |]. split; [reflexivity |].
  split; [rewrite Htrace; exact Htail | exact Hcache].
Defined.

(** X3: a job that succeeds leaves the engine it used and the style of its
    voice in the cache, and the response's sample rate is that of the cached
    engine; so a later job for the same voice with a valid language, in any
    environment (even one where the files are gone), makes no file-system
    or loader call and does not change the cache. *)
Theorem handler_success_warms_the_cache env job c audio d rate :
  outcome (handler env job c) = inr (Success audio d rate) ->
  let c1 := cache_after (handler env job c) in
  exists i m s,
    outcome (job_get_input job c) = inr i
    /\ tts_model c1 = Some m
    /\ sample_rate m = rate
    /\ voice_styles c1 !! default default_voice (voice i) = Some s
    /\ forall env' job' i',
         outcome (job_get_input job' c1) = inr i' ->
         default default_voice (voice i') = default default_voice (voice i) ->
         str_in (default default_language (language i')) available_langs = true ->
         forallb engine_event (trace (handler env' job' c1)) = true
         /\ cache_after (handler env' job' c1) = c1.
Proof.
  intros H c1.
  destruct (outcome (job_get_input job c)) as [e | i] eqn:Hi.
  { destruct (handler_run_bad_input env job c e Hi) as (Hrun & _). rewrite Hrun in H.
    discriminate. }
  destruct (str_in (default default_language (language i)) available_langs) eqn:Hl.
  2:{ rewrite (handler_run_invalid env job i c Hi Hl) in H. discriminate. }
  destruct (handler_run_valid env job i c Hi Hl) as (_ & Hca & Ho).
  rewrite Ho in H.
  match type of H with
  | inr (match outcome ?run with _ => _ end) = _ =>
      destruct (outcome run) as [e | r] eqn:Hrun; [discriminate |]
  end.
  injection H as ->.
  destruct (synthesize_job_success_run _ _ _ _ _ _ _ _ Hrun)
    as (m & s & row & rows & d' & ds & n & buffer & Hm & Hs & _ & _ & _ & Hr & _ & Hcache).
  injection Hr as -> -> ->.
  assert (tts_model c1 = Some m) as Hc1.
  { unfold c1. rewrite Hca, Hcache.
    apply (get_voice_style_monotone env _ (cache_after (load_model env c))).
    now apply load_model_stores. }
  assert (voice_styles c1 !! default default_voice (voice i) = Some s) as Hv1.
  { unfold c1. rewrite Hca, Hcache. now apply get_voice_style_stores. }
  exists i, m, s. split; [reflexivity |]. split; [exact Hc1 |]. split; [reflexivity |].
  split; [exact Hv1 |].
  intros env' job' i' Hi' Hv Hl'.
  apply (handler_fully_warm env' job' i' c1 m s Hi' Hl' Hc1). now rewrite Hv.
Qed.

Lemma handler_success_warms_the_cache_witness :
  let job := Stub.job_of empty_input in
  let c1 := cache_after (handler Stub.ready_env job initial_cache) in
  outcome (handler Stub.ready_env job initial_cache) =
    inr (Success (Base64.b64encode (repeat x00 93)) Stub.dur 24000)
  /\ tts_model c1 = Some Stub.model
  /\ forallb engine_event (trace (handler Scenario.bare_env job c1)) = true
  /\ cache_after (handler Scenario.bare_env job c1) = c1.
Proof.
  intros job c1.
  assert (outcome (handler Stub.ready_env job initial_cache) =
            inr (Success (Base64.b64encode (repeat x00 93)) Stub.dur 24000)) as H
    by (vm_compute; reflexivity).
  destruct (handler_success_warms_the_cache _ _ _ _ _ _ H)
    as (i & m & s & Hi & Hm & _ & _ & Hnext).
  injection Hi as <-.
  split; [exact H |]. split; [reflexivity |].
  exact (Hnext Scenario.bare_env job empty_input eq_refl eq_refl eq_refl).
Defined.

(** X4: when the engine can be loaded and the language is valid, the handle
    is cached once the job ends, whatever goes wrong afterwards; in
    particular when the job's voice cannot be loaded the handler returns the
    error and the cache is exactly the one [load_model] left, so the next
    job does not load the engine again. *)
Theorem handler_failure_keeps_loaded_engine env job i c m :
  outcome (job_get_input job c) = inr i ->
  str_in (default default_language (language i)) available_langs = true ->
  outcome (load_model env c) = inr m ->
  let voice := default default_voice (voice i) in
  let c1 := cache_after (load_model env c) in
  tts_model (cache_after (handler env job c)) = Some m
  /\ (forall e,
        outcome (get_voice_style env voice c1) = inl e ->
        outcome (handler env job c) = inr (Error (exn_str e))
        /\ cache_after (handler env job c) = c1
        /\ tts_model c1 = Some m).
Proof.
  intros Hi Hl Hm voice c1. subst voice.
  destruct (handler_run_valid env job i c Hi Hl) as (_ & Hca & Ho).
  pose proof (load_model_stores env c m Hm) as Hstored. fold c1 in Hstored.
  assert (tts_model (cache_after
                       (get_voice_style env (default default_voice (voice i)) c1)) = Some m)
    as Hgv by now apply (get_voice_style_monotone env _ c1).
  split.
  - rewrite Hca.
    destruct (outcome (get_voice_style env (default default_voice (voice i)) c1))
      as [e | s] eqn:Hs.
    + now rewrite (synthesize_job_style_fails_run _ _ _ _ _ _ _ m e Hm Hs).
    + destruct (synthesize_job_tail env
                  (default default_text (text i)) (default default_language (language i))
                  (default default_voice (voice i)) (default default_speed (speed i))
                  (default default_total_step (total_step i)) c m s Hm Hs) as (Hcache & _).
      now rewrite Hcache.
  - intros e Hs. rewrite Ho, Hca.
    rewrite (synthesize_job_style_fails_run _ _ _ _ _ _ _ m e Hm Hs).
    cbn [outcome cache_after fst snd].
    split; [reflexivity |]. split; [| exact Hstored].
    now apply (get_voice_style_failure_keeps_cache env _ c1 e).
Qed.

Lemma handler_failure_keeps_loaded_engine_witness :
  let job := Stub.job_of empty_input in
  outcome (job_get_input job initial_cache) = inr empty_input
  /\ outcome (load_model Stub.no_styles_dir_env initial_cache) = inr Stub.model
  /\ outcome (handler Stub.no_styles_dir_env job initial_cache) =
       inr (Error "[Errno 2] No such file or directory: 'assets/voice_styles'")
  /\ tts_model (cache_after (handler Stub.no_styles_dir_env job initial_cache)) =
       Some Stub.model.
Proof.
  intros job.
  destruct (handler_failure_keeps_loaded_engine Stub.no_styles_dir_env job empty_input
              initial_cache Stub.model eq_refl eq_refl eq_refl) as (Hkeep & Hfail).
  destruct (Hfail _ eq_refl) as (Hout & _).
  split; [reflexivity |]. split; [reflexivity |]. split; [exact Hout | exact Hkeep].
Defined.

(** X5: whenever [load_model] raises, nothing is cached: the cache is
    unchanged and the handle is still unset.  Either some required file is
    absent and the exception is the one listing the absent files, or all six
    files exist and the exception is the one [load_text_to_speech] raised,
    passed on unchanged after the six checks and the load attempt. *)
Theorem load_model_failure_caches_nothing env c e :
  outcome (load_model env c) = inl e ->
  cache_after (load_model env c) = c
  /\ tts_model c = None
  /\ ((missing_files env <> []
       /\ e = Exn FileNotFoundError
                ("Missing required model files: " ++ PyStr.repr_list (missing_files env))
       /\ trace (load_model env c) = exists_checks)
      \/ (missing_files env = []
          /\ load_text_to_speech env ONNX_DIR false = inl e
          /\ trace (load_model env c) =
               (exists_checks ++ [EvLoadModel ONNX_DIR false])%list)).
Proof.
  intros H. destruct (tts_model c) as [m |] eqn:Hc.
  { rewrite (load_model_cached env c m Hc) in H. discriminate. }
  destruct (missing_files env) as [| f l] eqn:Hm.
  - rewrite (load_model_cold env c Hc Hm) in H |- *.
    destruct (load_text_to_speech env ONNX_DIR false) as [e' | m]; [| discriminate].
    injection H as ->. split; [reflexivity |]. split; [reflexivity |]. right. auto.
  - assert (missing_files env <> []) as Hne by congruence.
    rewrite (load_model_missing env c Hc Hne) in H |- *. injection H as <-.
    rewrite Hm. split; [reflexivity |]. split; [reflexivity |]. left. auto.
Qed.

Lemma load_model_failure_caches_nothing_witness :
  outcome (load_model Scenario.faulty_loader_env initial_cache) = inl Scenario.loader_fault
  /\ cache_after (load_model Scenario.faulty_loader_env initial_cache) = initial_cache
  /\ trace (load_model Scenario.faulty_loader_env initial_cache) =
       (exists_checks ++ [EvLoadModel ONNX_DIR false])%list.
Proof.
  destruct (load_model_failure_caches_nothing Scenario.faulty_loader_env initial_cache
              Scenario.loader_fault eq_refl) as (Hcache & _ & Hkind).
  split; [reflexivity |]. split; [exact Hcache |].
  destruct Hkind as [(Hm & _) | (_ & _ & Htrace)]; [| exact Htrace].
  exfalso. apply Hm. reflexivity.
Defined.

(** ** The external calls of a job *)

Lemma quiet_in t ev : quiet t -> In ev t -> engine_event ev = false.
Proof.
  unfold quiet. rewrite forallb_forall. intros H Hin.
  apply negb_true_iff. now apply H.
Qed.

Lemma quiet_filter t : quiet t -> List.filter engine_event t = [].
Proof.
  unfold quiet. induction t as [| ev t IH]; [reflexivity |]. cbn.
  intros H. apply andb_true_iff in H as [Hev Ht]. apply negb_true_iff in Hev.
  rewrite Hev. now apply IH.
Qed.

(** X6: the inventory of the external calls a job can make.  Besides the
    engine and encoder calls, a job only checks the six required model files
    (and only while no engine is cached), calls the model loader on the
    model directory with the GPU switched off (only when no engine is cached
    and none of the six files is absent), checks the style file of its own
    voice, lists the styles directory (only when that file is absent) and
    calls the style loader on that one file (only when it exists), the last
    three only while the voice is not cached. *)
Theorem handler_external_calls env job i c ev :
  outcome (job_get_input job c) = inr i ->
  In ev (trace (handler env job c)) ->
  let voice := default default_voice (voice i) in
  (tts_model c = None
   /\ exists f, In f required_files /\ ev = EvExists (os_path_join ONNX_DIR f))
  \/ (tts_model c = None /\ missing_files env = []
      /\ ev = EvLoadModel ONNX_DIR false)
  \/ (voice_styles c !! voice = None /\ ev = EvExists (voice_path voice))
  \/ (voice_styles c !! voice = None /\ path_exists env (voice_path voice) = false
      /\ ev = EvListdir VOICE_STYLES_DIR)
  \/ (voice_styles c !! voice = None /\ path_exists env (voice_path voice) = true
      /\ ev = EvLoadStyle [voice_path voice])
  \/ engine_event ev = true.
Proof.
  intros Hi Hin voice.
  destruct (str_in (default default_language (language i)) available_langs) eqn:Hl.
  2:{ rewrite (handler_run_invalid env job i c Hi Hl) in Hin. destruct Hin. }
  destruct (handler_run_valid env job i c Hi Hl) as (Ht & _). rewrite Ht in Hin.
  apply synthesize_job_trace_in in Hin as [Hin | [Hin | Hin]].
  - apply load_model_trace_in in Hin as (Hc & [(f & Hf & ->) | (-> & Hm)]).
    + left. split; [exact Hc |]. now exists f.
    + right; left. auto.
  - apply get_voice_style_trace_in in Hin as (Hc & Hev).
    rewrite load_model_keeps_styles in Hc. fold voice in Hc, Hev.
    destruct Hev as [-> | [(-> & Hp) | (-> & Hp)]].
    + right; right; left. auto.
    + right; right; right; left. auto.
    + right; right; right; right; left. auto.
  - repeat right. exact Hin.
Qed.

Lemma handler_external_calls_witness :
  let job := Stub.job_of empty_input in
  outcome (job_get_input job initial_cache) = inr empty_input
  /\ In (EvLoadModel ONNX_DIR false) (trace (handler Stub.ready_env job initial_cache))
  /\ missing_files Stub.ready_env = [].
Proof.
  intros job.
  assert (In (EvLoadModel ONNX_DIR false)
            (trace (handler Stub.ready_env job initial_cache))) as Hin
    by (vm_compute; tauto).
  split; [reflexivity |]. split; [exact Hin |].
  destruct (handler_external_calls Stub.ready_env job empty_input initial_cache
              (EvLoadModel ONNX_DIR false) eq_refl Hin)
    as [(_ & f & _ & H) | [(_ & Hm & _) | [(_ & H) | [(_ & _ & H) | [(_ & _ & H) | H]]]]];
    try discriminate H.
  exact Hm.
Defined.





(** ** What a job may change in the cache *)

Lemma get_voice_style_frame env v c :
  tts_model (cache_after (get_voice_style env v c)) = tts_model c
  /\ forall v', v' <> v ->
       voice_styles (cache_after (get_voice_style env v c)) !! v' = voice_styles c !! v'.
Proof.
  destruct (get_voice_style_cases env v c)
    as [(s & _ & ->) | [(_ & e & t & ->) | (_ & _ & s & _ & ->)]]; cbn;
    (split; [reflexivity |]); intros v' Hne; [reflexivity | reflexivity |].
  now rewrite lookup_insert_ne.
Qed.

Lemma load_model_frame env c m :
  tts_model c = Some m -> cache_after (load_model env c) = c.
Proof. intros H. now rewrite (load_model_cached env c m H). Qed.

Lemma synthesize_job_cache env text language voice speed total_step c :
  let run := synthesize_job env text language voice speed total_step c in
  cache_after run = cache_after (load_model env c)
  \/ cache_after run =
       cache_after (get_voice_style env voice (cache_after (load_model env c))).
Proof.
  intros run. unfold run.
  destruct (outcome (load_model env c)) as [e | m] eqn:Hm.
  { rewrite (synthesize_job_load_fails_run _ _ _ _ _ _ _ e Hm). now left. }
  destruct (outcome (get_voice_style env voice (cache_after (load_model env c))))
    as [e | s] eqn:Hs.
  { rewrite (synthesize_job_style_fails_run _ _ _ _ _ _ _ m e Hm Hs). now right. }
  right. now apply (synthesize_job_tail env text language voice speed total_step c m s).
Qed.

(** X8: a job changes at most two things in the cache: the engine handle,
    and only if it was unset, and the style entry of the job's own voice,
    and only if that voice was not cached; the entry of every other voice,
    cached or not, is as before. *)
Theorem handler_changes_only_its_own_entries env job i c :
  outcome (job_get_input job c) = inr i ->
  let voice := default default_voice (voice i) in
  let c' := cache_after (handler env job c) in
  (forall v', v' <> voice -> voice_styles c' !! v' = voice_styles c !! v')
  /\ (forall m, tts_model c = Some m -> tts_model c' = Some m)
  /\ (forall s, voice_styles c !! voice = Some s -> voice_styles c' !! voice = Some s)
  /\ (forall m s, tts_model c = Some m -> voice_styles c !! voice = Some s -> c' = c).
Proof.
  intros Hi voice c'. subst voice.
  assert (forall v', v' <> default default_voice (voice i) ->
                     voice_styles c' !! v' = voice_styles c !! v') as Hothers.
  { intros v' Hne. unfold c'.
    destruct (str_in (default default_language (language i)) available_langs) eqn:Hl.
    2:{ now rewrite (handler_run_invalid env job i c Hi Hl). }
    destruct (handler_run_valid env job i c Hi Hl) as (_ & -> & _).
    destruct (synthesize_job_cache env
                (default default_text (text i)) (default default_language (language i))
                (default default_voice (voice i)) (default default_speed (speed i))
                (default default_total_step (total_step i)) c) as [-> | ->].
    - now rewrite load_model_keeps_styles.
    - destruct (get_voice_style_frame env (default default_voice (voice i))
                  (cache_after (load_model env c))) as (_ & Hframe).
      rewrite (Hframe v' Hne). now rewrite load_model_keeps_styles. }
  destruct (handler_monotone env job c) as (Hengine & Hstyles & _). fold c' in Hengine, Hstyles.
  split; [exact Hothers |]. split; [exact Hengine |]. split; [intros s; apply Hstyles |].
  intros m s Hm Hs. unfold c'.
  destruct (str_in (default default_language (language i)) available_langs) eqn:Hl.
  - now apply (handler_fully_warm env job i c m s).
  - now rewrite (handler_run_invalid env job i c Hi Hl).
Qed.

Lemma handler_changes_only_its_own_entries_witness :
  let job := Scenario.job_for_voice "M9" in
  let i := {| text := Some "Hi"; language := Some "en"; voice := Some "M9";
              speed := None; total_step := None |} in
  let c' := cache_after (handler Stub.ready_env job Scenario.warm_cache) in
  outcome (job_get_input job Scenario.warm_cache) = inr i
  /\ "M1" <> "M9"
  /\ voice_styles c' !! "M1" = Some Stub.style
  /\ tts_model c' = Some Stub.model.
Proof.
  intros job i c'.
  destruct (handler_changes_only_its_own_entries Stub.ready_env job i Scenario.warm_cache
              eq_refl) as (Hothers & Hengine & _).
  assert ("M1" <> "M9") as Hne by discriminate.
  split; [reflexivity |]. split; [exact Hne |].
  split; [exact (Hothers "M1" Hne) | exact (Hengine Stub.model eq_refl)].
Defined.

(** ** The written waveform outside the expected range *)

Lemma slice_to_prefix {A} (n : Z) (row : list A) :
  slice_to n row = firstn (length (slice_to n row)) row
  /\ (length (slice_to n row) <= length row)%nat
  /\ (n < 0 -> Z.of_nat (length (slice_to n row)) = Z.max 0 (Z.of_nat (length row) + n))
  /\ (Z.of_nat (length row) <= n -> slice_to n row = row).
Proof.
  unfold slice_to. set (len := Z.of_nat (length row)).
  set (stop := if n <? 0 then Z.max 0 (len + n) else Z.min n len).
  assert (0 <= stop <= len) as Hstop
    by (unfold stop, len; destruct (Z.ltb_spec n 0); lia).
  assert (length (firstn (Z.to_nat stop) row) = Z.to_nat stop) as Hlen
    by (rewrite length_firstn; unfold len in Hstop; lia).
  rewrite Hlen. split; [reflexivity |]. split; [unfold len in Hstop; lia |]. split.
  - intros Hn. unfold stop. destruct (Z.ltb_spec n 0); lia.
  - intros Hn. apply firstn_all2. unfold stop, len in *.
    destruct (Z.ltb_spec n 0); lia.
Qed.

Lemma handler_success_run env job c audio d rate :
  outcome (handler env job c) = inr (Success audio d rate) ->
  exists i,
    outcome (job_get_input job c) = inr i
    /\ str_in (default default_language (language i)) available_langs = true
    /\ outcome (synthesize_job env
                  (default default_text (text i)) (default default_language (language i))
                  (default default_voice (voice i)) (default default_speed (speed i))
                  (default default_total_step (total_step i)) c)
       = inr (Success audio d rate).
Proof.
  intros H. destruct (outcome (job_get_input job c)) as [e | i] eqn:Hi.
  { destruct (handler_run_bad_input env job c e Hi) as (Hrun & _). rewrite Hrun in H.
    discriminate. }
  destruct (str_in (default default_language (language i)) available_langs) eqn:Hl.
  2:{ rewrite (handler_run_invalid env job i c Hi Hl) in H. discriminate. }
  destruct (handler_run_valid env job i c Hi Hl) as (_ & _ & Ho). rewrite Ho in H.
  exists i. split; [reflexivity |]. split; [exact Hl |].
  match type of H with
  | inr (match outcome ?run with _ => _ end) = _ =>
      destruct (outcome run) as [e | r]; [discriminate |]
  end.
  now injection H as ->.
Qed.

(** X9: in a successful job the waveform written is always a prefix of the
    first row the engine returned, never longer than it and never padded:
    when the truncated product [n = int(sample_rate * duration)] is at least
    the length of the row the whole row is written, and when [n] is negative
    (a negative duration) the job still succeeds and writes the row without
    its last [-n] samples (nothing, if the row is shorter than that). *)
Theorem handler_writes_a_prefix_of_the_row env job c audio d rate :
  outcome (handler env job c) = inr (Success audio d rate) ->
  exists m text language s total_step speed row rows ds n,
    synthesize env m text language s total_step speed = inr (row :: rows, d :: ds)
    /\ trimmed_length rate d = inr n
    /\ In (EvWrite (slice_to n row) rate) (trace (handler env job c))
    /\ slice_to n row = firstn (length (slice_to n row)) row
    /\ (length (slice_to n row) <= length row)%nat
    /\ (n < 0 ->
        Z.of_nat (length (slice_to n row)) = Z.max 0 (Z.of_nat (length row) + n))
    /\ (Z.of_nat (length row) <= n -> slice_to n row = row).
Proof.
  intros H. destruct (handler_success_run env job c audio d rate H) as (i & Hi & Hl & Hrun).
  destruct (handler_run_valid env job i c Hi Hl) as (Ht & _).
  destruct (synthesize_job_success_run _ _ _ _ _ _ _ _ Hrun)
    as (m & s & row & rows & d' & ds & n & buffer & _ & _ & Hsyn & Hn & _ & Hr & Htrace & _).
  injection Hr as _ -> ->.
  eexists m, _, _, s, _, _, row, rows, ds, n.
  split; [exact Hsyn |]. split; [exact Hn |].
  split.
  { rewrite Ht, Htrace. apply in_or_app. right. apply in_or_app. right. cbn. auto. }
  apply slice_to_prefix.
Qed.

Lemma handler_writes_a_prefix_of_the_row_witness :
  let env := Scenario.engine_returns Stub.wav100 [Scenario.negative_dur] in
  let job := Stub.job_of empty_input in
  outcome (handler env job initial_cache) =
    inr (Success (Base64.b64encode (repeat x00 7)) Scenario.negative_dur 24000)
  /\ trimmed_length 24000 Scenario.negative_dur = inr (-93)
  /\ In (EvWrite (repeat Stub.zero 7) 24000) (trace (handler env job initial_cache)).
Proof.
  intros env job.
  assert (outcome (handler env job initial_cache) =
            inr (Success (Base64.b64encode (repeat x00 7)) Scenario.negative_dur 24000)) as H
    by (vm_compute; reflexivity).
  split; [exact H |]. split; [reflexivity |].
  destruct (handler_writes_a_prefix_of_the_row env job initial_cache _ _ _ H)
    as (m & text & language & s & total_step & speed & row & rows & ds & n
        & Hsyn & Hn & Hin & _).
  injection Hsyn as <- _. injection Hn as <-. exact Hin.
Defined.

(** ** Engine output that cannot be trimmed *)

Lemma quiet_no_write t data rate : quiet t -> ~ In (EvWrite data rate) t.
Proof. intros Hq Hin. apply (quiet_in t _ Hq) in Hin. discriminate Hin. Qed.

Lemma trimmed_length_nan rate :
  PyFloat.is_infinity (PyFloat.of_int rate) = false ->
  trimmed_length rate S754_nan
  = inl (Exn ValueError "cannot convert float NaN to integer").
Proof.
  intros H. unfold trimmed_length, PyFloat.int_mul. rewrite H.
  unfold PyFloat.mul, SFmul. now destruct (PyFloat.of_int rate).
Qed.

(** X10: when [int(sample_rate * duration)] raises for the duration the
    engine returned, the handler returns that exception's message as an
    error result and the encoder is never called; for a NaN duration (and a
    sample rate that converts to a finite float) the message is "cannot
    convert float NaN to integer". *)
Theorem handler_rejects_unusable_duration env job i c m s wav d ds e :
  outcome (job_get_input job c) = inr i ->
  let text := default default_text (text i) in
  let language := default default_language (language i) in
  let voice := default default_voice (voice i) in
  let speed := default default_speed (speed i) in
  let total_step := default default_total_step (total_step i) in
  str_in language available_langs = true ->
  outcome (load_model env c) = inr m ->
  outcome (get_voice_style env voice (cache_after (load_model env c))) = inr s ->
  synthesize env m text language s total_step speed = inr (wav, d :: ds) ->
  trimmed_length (sample_rate m) d = inl e ->
  outcome (handler env job c) = inr (Error (exn_str e))
  /\ (forall data rate, ~ In (EvWrite data rate) (trace (handler env job c)))
  /\ (d = S754_nan ->
      PyFloat.is_infinity (PyFloat.of_int (sample_rate m)) = false ->
      exn_str e = "cannot convert float NaN to integer").
Proof.
  intros Hi text language voice speed total_step Hl Hm Hs Hsyn Hn.
  destruct (handler_run_valid env job i c Hi Hl) as (Ht & _ & Ho).
  fold text language voice speed total_step in Ht, Ho.
  pose proof (synthesize_job_after_engine env text language voice speed total_step c m s
                wav (d :: ds) Hm Hs Hsyn) as Hrun.
  cbv beta iota zeta in Hrun. rewrite Hn in Hrun. injection Hrun as Hout Htrace.
  split; [rewrite Ho, Hout; reflexivity |]. split.
  - intros data rate Hin. rewrite Ht, Htrace in Hin.
    apply in_app_or in Hin as [Hin | [Hin | []]]; [| discriminate Hin].
    revert Hin. apply quiet_no_write, quiet_app;
      [apply load_model_quiet | apply get_voice_style_quiet].
  - intros -> Hfin. rewrite (trimmed_length_nan _ Hfin) in Hn. now injection Hn as <-.
Qed.

Lemma handler_rejects_unusable_duration_witness :
  let env := Scenario.engine_returns Stub.wav100 [S754_nan] in
  let job := Stub.job_of empty_input in
  outcome (job_get_input job initial_cache) = inr empty_input
  /\ synthesize env Stub.model "Hello, this is a test." "en" Stub.style 5
       (NFloat float_1_05) = inr (Stub.wav100, [S754_nan])
  /\ trimmed_length 24000 S754_nan
     = inl (Exn ValueError "cannot convert float NaN to integer")
  /\ outcome (handler env job initial_cache)
     = inr (Error "cannot convert float NaN to integer").
Proof.
  intros env job.
  split; [reflexivity |]. split; [reflexivity |]. split; [reflexivity |].
  exact (proj1 (handler_rejects_unusable_duration env job empty_input initial_cache
                  Stub.model Stub.style Stub.wav100 S754_nan []
                  (Exn ValueError "cannot convert float NaN to integer")
                  eq_refl eq_refl eq_refl eq_refl eq_refl eq_refl)).
Defined.

(** X11: when the engine returns an empty duration array, or a waveform
    with no row, indexing it at 0 fails, and the handler returns the index
    error's message as an error result; the encoder is never called, and
    the engine and the style stay cached. *)
Theorem handler_reports_empty_engine_output env job i c m s wav duration :
  outcome (job_get_input job c) = inr i ->
  let text := default default_text (text i) in
  let language := default default_language (language i) in
  let voice := default default_voice (voice i) in
  let speed := default default_speed (speed i) in
  let total_step := default default_total_step (total_step i) in
  str_in language available_langs = true ->
  outcome (load_model env c) = inr m ->
  outcome (get_voice_style env voice (cache_after (load_model env c))) = inr s ->
  synthesize env m text language s total_step speed = inr (wav, duration) ->
  duration = []
  \/ (wav = [] /\ exists d ds n,
        duration = d :: ds /\ trimmed_length (sample_rate m) d = inr n) ->
  outcome (handler env job c)
  = inr (Error "index 0 is out of bounds for axis 0 with size 0")
  /\ (forall data rate, ~ In (EvWrite data rate) (trace (handler env job c)))
  /\ tts_model (cache_after (handler env job c)) = Some m
  /\ voice_styles (cache_after (handler env job c)) !! voice = Some s.
Proof.
  intros Hi text language voice speed total_step Hl Hm Hs Hsyn Hempty.
  destruct (handler_run_valid env job i c Hi Hl) as (Ht & Hca & Ho).
  fold text language voice speed total_step in Ht, Hca, Ho.
  pose proof (synthesize_job_after_engine env text language voice speed total_step c m s
                wav duration Hm Hs Hsyn) as Hrun.
  cbv beta iota zeta in Hrun.
  destruct (synthesize_job_tail env text language voice speed total_step c m s Hm Hs)
    as (Hcache & _).
  assert (outcome (synthesize_job env text language voice speed total_step c)
          = inl (Exn IndexError "index 0 is out of bounds for axis 0 with size 0")
          /\ trace (synthesize_job env text language voice speed total_step c)
             = ((trace (load_model env c)
                 ++ trace (get_voice_style env voice (cache_after (load_model env c))))
                ++ [EvSynthesize m text language s total_step speed])%list)
    as (Hout & Htrace).
  { destruct Hempty as [-> | (-> & d & ds & n & -> & Hn)].
    - cbv beta iota in Hrun. now injection Hrun as -> ->.
    - cbv beta iota in Hrun. rewrite Hn in Hrun. now injection Hrun as -> ->. }
  split; [rewrite Ho, Hout; reflexivity |]. split.
  { intros data rate Hin. rewrite Ht, Htrace in Hin.
    apply in_app_or in Hin as [Hin | [Hin | []]]; [| discriminate Hin].
    revert Hin. apply quiet_no_write, quiet_app;
      [apply load_model_quiet | apply get_voice_style_quiet]. }
  rewrite Hca, Hcache. split.
  - apply (get_voice_style_monotone env voice (cache_after (load_model env c))).
    now apply load_model_stores.
  - now apply get_voice_style_stores.
Qed.

Lemma handler_reports_empty_engine_output_witness :
  let env := Scenario.engine_returns Stub.wav100 [] in
  let job := Stub.job_of empty_input in
  outcome (job_get_input job initial_cache) = inr empty_input
  /\ synthesize env Stub.model "Hello, this is a test." "en" Stub.style 5
       (NFloat float_1_05) = inr (Stub.wav100, [])
  /\ outcome (handler env job initial_cache)
     = inr (Error "index 0 is out of bounds for axis 0 with size 0")
  /\ tts_model (cache_after (handler env job initial_cache)) = Some Stub.model.
Proof.
  intros env job.
  destruct (handler_reports_empty_engine_output env job empty_input initial_cache
              Stub.model Stub.style Stub.wav100 []
              eq_refl eq_refl eq_refl eq_refl eq_refl (or_introl eq_refl))
    as (Hout & _ & Hm & _).
  split; [reflexivity |]. split; [reflexivity |]. split; [exact Hout | exact Hm].
Defined.

(** ** The style file a voice name resolves to *)

Lemma prefix_nil s : String.prefix "" s = true.
Proof. now destruct s. Qed.

Lemma prefix_slash_app v suffix :
  v <> "" -> String.prefix "/" (v ++ suffix) = String.prefix "/" v.
Proof.
  destruct v as [| ch v]; [congruence |]. intros _. rewrite str_app_cons.
  cbn [String.prefix]. destruct (ascii_dec "/" ch); [| reflexivity].
  now rewrite !prefix_nil.
Qed.

Lemma voice_path_relative v :
  String.prefix "/" v = false -> voice_path v = "assets/voice_styles/" ++ v ++ ".json".
Proof.
  intros H. unfold voice_path, os_path_join.
  assert (String.prefix "/" (v ++ ".json") = false) as ->.
  { destruct v as [| ch v]; [reflexivity |]. now rewrite prefix_slash_app. }
  reflexivity.
Qed.

Lemma voice_path_absolute v :
  String.prefix "/" v = true -> voice_path v = v ++ ".json".
Proof.
  intros H. unfold voice_path, os_path_join.
  assert (String.prefix "/" (v ++ ".json") = true) as ->; [| reflexivity].
  destruct v as [| ch v]; [discriminate |]. now rewrite prefix_slash_app.
Qed.

(** X12: a voice name that does not begin with "/" resolves to
    "assets/voice_styles/<name>.json"; a voice name that begins with "/" is
    taken by [os.path.join] as an absolute path, so the style file checked,
    loaded and cached under that name is "<name>.json" itself, outside the
    styles directory. *)
Theorem voice_name_resolution env v c :
  (String.prefix "/" v = false ->
   voice_path v = "assets/voice_styles/" ++ v ++ ".json")
  /\ (String.prefix "/" v = true ->
      voice_path v = v ++ ".json"
      /\ forall s,
           voice_styles c !! v = None ->
           path_exists env (v ++ ".json") = true ->
           load_voice_style env [v ++ ".json"] = inr s ->
           get_voice_style env v c =
             (inr s,
              {| tts_model := tts_model c; voice_styles := <[v := s]> (voice_styles c) |},
              [EvExists (v ++ ".json"); EvLoadStyle [v ++ ".json"]])).
Proof.
  split; [apply voice_path_relative |].
  intros H. pose proof (voice_path_absolute v H) as Hp. split; [exact Hp |].
  intros s Hc He Hl. rewrite <- Hp in He, Hl |- *.
  rewrite (get_voice_style_present env v c Hc He). now rewrite Hl.
Qed.

Lemma voice_name_resolution_witness :
  String.prefix "/" "/tmp/x" = true
  /\ voice_path "M1" = "assets/voice_styles/M1.json"
  /\ get_voice_style Scenario.outside_env "/tmp/x" initial_cache =
       (inr Stub.style,
        {| tts_model := None; voice_styles := {[ "/tmp/x" := Stub.style ]} |},
        [EvExists "/tmp/x.json"; EvLoadStyle ["/tmp/x.json"]]).
Proof.
  destruct (voice_name_resolution Scenario.outside_env "/tmp/x" initial_cache)
    as (_ & Habs).
  destruct (voice_name_resolution Scenario.outside_env "M1" initial_cache)
    as (Hrel & _).
  split; [reflexivity |]. split; [exact (Hrel eq_refl) |].
  exact (proj2 (Habs eq_refl) Stub.style eq_refl eq_refl eq_refl).
Defined.

(** ** Start-up *)

(** X13: the statements at the end of the module reach
    [runpod.serverless.start] unless a directory that [os.path.exists]
    reports present cannot be listed: the import ends with the exception of
    [os.listdir], for the model directory, or, if that one is absent or
    listed, for the styles directory.  A directory that does not exist only
    gives a warning line. *)
Theorem startup_fails_only_on_unlistable_directory env e :
  started (startup env) = inl e <->
  (path_exists env ONNX_DIR = true /\ listdir env ONNX_DIR = inl e)
  \/ ((path_exists env ONNX_DIR = false \/ exists files, listdir env ONNX_DIR = inr files)
      /\ path_exists env VOICE_STYLES_DIR = true
      /\ listdir env VOICE_STYLES_DIR = inl e).
Proof.
  unfold startup, startup_styles.
  destruct (path_exists env ONNX_DIR) eqn:Ho;
    [destruct (listdir env ONNX_DIR) as [e1 | files] eqn:Hlo |];
    try (destruct (path_exists env VOICE_STYLES_DIR) eqn:Hv;
         [destruct (listdir env VOICE_STYLES_DIR) as [e2 | listing] eqn:Hlv |]);
    cbn [started]; split;
    try (intros [= ->]); try discriminate; eauto 6;
    intros [(H1 & H2) | (H1 & H2 & H3)]; try discriminate; try congruence;
    destruct H1 as [H1 | (files' & H1)]; congruence.
Qed.

Lemma startup_fails_only_on_unlistable_directory_witness :
  started (startup Scenario.onnx_is_file_env)
  = inl (Scenario.not_a_directory "assets/onnx")
  /\ started (startup Scenario.bare_env) = inr tt.
Proof.
  split; [| reflexivity].
  apply (proj2 (startup_fails_only_on_unlistable_directory Scenario.onnx_is_file_env
                  (Scenario.not_a_directory "assets/onnx"))).
  left. split; reflexivity.
Defined.

Lemma missing_files_all env :
  (forall f, In f required_files -> path_exists env (os_path_join ONNX_DIR f) = false) ->
  missing_files env = required_files.
Proof.
  intros H. unfold missing_files.
  assert (forall l, (forall f, In f l -> path_exists env (os_path_join ONNX_DIR f) = false) ->
                    List.filter (fun f => negb (path_exists env (os_path_join ONNX_DIR f))) l
                    = l) as Hall.
  { induction l as [| f l IH]; [reflexivity |]. intros Hl. cbn [List.filter].
    rewrite (Hl f (or_introl eq_refl)). cbn [negb]. f_equal. apply IH.
    intros g Hg. apply Hl. now right. }
  now apply Hall.
Qed.

(** X14: loading is deferred to the first job.  When neither directory
    exists, start-up makes two existence checks, prints the header and the
    two warning lines and reaches [runpod.serverless.start], without touching
    the loaders; the failure shows at the first job with a valid language,
    which checks the six model files and returns the error naming all six,
    leaving the cache empty. *)
Theorem missing_directories_fail_at_first_job env job i :
  path_exists env ONNX_DIR = false ->
  path_exists env VOICE_STYLES_DIR = false ->
  (forall f, In f required_files -> path_exists env (os_path_join ONNX_DIR f) = false) ->
  outcome (job_get_input job initial_cache) = inr i ->
  str_in (default default_language (language i)) available_langs = true ->
  startup env =
    {| started := inr tt;
       stdout := [ "=== Supertonic TTS RunPod Handler ===";
                   "ONNX directory: assets/onnx";
                   "Voice styles directory: assets/voice_styles";
                   "WARNING: ONNX directory not found at assets/onnx";
                   "WARNING: Voice styles directory not found at assets/voice_styles" ];
       calls := [EvExists ONNX_DIR; EvExists VOICE_STYLES_DIR] |}
  /\ handler env job initial_cache =
       (inr (Error ("Missing required model files: ['duration_predictor.onnx', "
                    ++ "'text_encoder.onnx', 'vector_estimator.onnx', 'vocoder.onnx', "
                    ++ "'tts.json', 'unicode_indexer.json']")),
        initial_cache, exists_checks).
Proof.
  intros Ho Hv Hfiles Hi Hl. split.
  - unfold startup, startup_styles. now rewrite Ho, Hv.
  - pose proof (missing_files_all env Hfiles) as Hm.
    assert (load_model env initial_cache =
              (inl (Exn FileNotFoundError
                      ("Missing required model files: "
                       ++ PyStr.repr_list (missing_files env))),
               initial_cache, exists_checks)) as Hlm.
    { apply load_model_missing; [reflexivity |]. rewrite Hm. discriminate. }
    destruct (handler_run_valid env job i initial_cache Hi Hl) as (Ht & Hca & Hout).
    assert (outcome (load_model env initial_cache)
            = inl (Exn FileNotFoundError
                     ("Missing required model files: "
                      ++ PyStr.repr_list (missing_files env)))) as Hfail
      by now rewrite Hlm.
    rewrite (synthesize_job_load_fails_run _ _ _ _ _ _ _ _ Hfail) in Ht, Hca, Hout.
    rewrite Hlm in Ht, Hca. cbn [trace cache_after outcome fst snd] in Ht, Hca, Hout.
    rewrite Hm in Hout.
    rewrite (surjective_pairing (handler env job initial_cache)).
    rewrite (surjective_pairing (fst (handler env job initial_cache))).
    unfold outcome, cache_after, trace in Ht, Hca, Hout. rewrite Ht, Hca, Hout.
    reflexivity.
Qed.

Lemma missing_directories_fail_at_first_job_witness :
  let job := Stub.job_of empty_input in
  path_exists Scenario.bare_env ONNX_DIR = false
  /\ outcome (job_get_input job initial_cache) = inr empty_input
  /\ started (startup Scenario.bare_env) = inr tt
  /\ outcome (handler Scenario.bare_env job initial_cache) =
       inr (Error ("Missing required model files: ['duration_predictor.onnx', "
                   ++ "'text_encoder.onnx', 'vector_estimator.onnx', 'vocoder.onnx', "
                   ++ "'tts.json', 'unicode_indexer.json']")).
Proof.
  intros job.
  destruct (missing_directories_fail_at_first_job Scenario.bare_env job empty_input
              eq_refl eq_refl (fun f _ => eq_refl) eq_refl eq_refl) as (Hstart & Hrun).
  split; [reflexivity |]. split; [reflexivity |].
  split; [now rewrite Hstart | now rewrite Hrun].
Defined.

(** ** One load per process *)

Lemma handler_no_reload env job c m d g :
  tts_model c = Some m -> ~ In (EvLoadModel d g) (trace (handler env job c)).
Proof.
  intros Hc Hin. destruct (outcome (job_get_input job c)) as [e | i] eqn:Hi.
  { destruct (handler_run_bad_input env job c e Hi) as (Hrun & _).
    rewrite Hrun in Hin. destruct Hin. }
  destruct (str_in (default default_language (language i)) available_langs) eqn:Hl.
  2:{ rewrite (handler_run_invalid env job i c Hi Hl) in Hin. destruct Hin. }
  destruct (handler_run_valid env job i c Hi Hl) as (Ht & _). rewrite Ht in Hin.
  apply synthesize_job_trace_in in Hin as [Hin | [Hin | Hin]].
  - apply load_model_trace_in in Hin as (Hnone & _). congruence.
  - apply get_voice_style_trace_in in Hin as (_ & [H | [(H & _) | (H & _)]]);
      discriminate H.
  - discriminate Hin.
Qed.

Lemma op_no_reload env op c m d g :
  tts_model c = Some m -> ~ In (EvLoadModel d g) (op_trace env op c).
Proof.
  intros Hc. destruct op as [| v | job]; cbn [op_trace].
  - now rewrite (load_model_cached env c m Hc).
  - intros Hin. apply get_voice_style_trace_in in Hin as (_ & [H | [(H & _) | (H & _)]]);
      discriminate H.
  - now apply (handler_no_reload env job c m).
Qed.

(** X15: the engine is loaded at most once per process: from a cache that
    holds an engine handle, no sequence of [load_model], [get_voice_style]
    and handler calls, in whatever environments, ever calls the model loader
    again, and the handle at the end is still the same one. *)
Theorem engine_is_never_loaded_again ops c m :
  tts_model c = Some m ->
  (forall d g, ~ In (EvLoadModel d g) (run_trace ops c))
  /\ tts_model (run_ops ops c) = Some m.
Proof.
  intros Hc. split; [| now apply run_ops_keeps_engine].
  revert c Hc. induction ops as [| [env op] ops IH]; intros c Hc d g; [intros [] |].
  cbn [run_trace]. intros Hin. apply in_app_or in Hin as [Hin | Hin].
  - now apply (op_no_reload env op c m d g).
  - apply (IH (run_op env op c)) in Hin; [exact Hin |].
    now apply (run_op_grows env op c).
Qed.

Lemma engine_is_never_loaded_again_witness :
  let ops := [(Stub.ready_env, OpHandler (Stub.job_of empty_input));
              (Scenario.faulty_loader_env, OpLoadModel);
              (Stub.no_vocoder_env, OpHandler (Scenario.job_for_voice "M9"))] in
  let c := cache_after (load_model Stub.ready_env initial_cache) in
  tts_model c = Some Stub.model
  /\ ~ In (EvLoadModel ONNX_DIR false) (run_trace ops c)
  /\ tts_model (run_ops ops c) = Some Stub.model.
Proof.
  intros ops c.
  destruct (engine_is_never_loaded_again ops c Stub.model eq_refl) as (Hnever & Hkeep).
  split; [reflexivity |]. split; [apply Hnever | exact Hkeep].
Defined.

(** ** The audio field carries the written bytes *)

Lemma sextet_spec n :
  (n < 64)%N ->
  Base64Decode.unsextet (Base64.sextet n) = n
  /\ Ascii.eqb (Base64.sextet n) "=" = false.
Proof.
  intros H.
  assert (forallb (fun k =>
            N.eqb (Base64Decode.unsextet (Base64.sextet k)) k
            && negb (Ascii.eqb (Base64.sextet k) "="))
            (map N.of_nat (seq 0 64)) = true) as Hall by (vm_compute; reflexivity).
  rewrite forallb_forall in Hall.
  assert (In n (map N.of_nat (seq 0 64))) as Hin.
  { apply in_map_iff. exists (N.to_nat n). split; [lia |]. apply in_seq. lia. }
  specialize (Hall n Hin). apply andb_true_iff in Hall as [H1 H2].
  apply N.eqb_eq in H1. apply negb_true_iff in H2. now split.
Qed.

Lemma to_byte_to_N b : Base64Decode.to_byte (Byte.to_N b) = b.
Proof. unfold Base64Decode.to_byte. now rewrite Byte.of_to_N. Qed.

Lemma byte_bound b : (Byte.to_N b < 256)%N.
Proof. pose proof (Byte.to_N_bounded b). lia. Qed.

Lemma decode_chunk a b c r :
  Base64Decode.b64decode (Base64.b64encode (a :: b :: c :: r))
  = a :: b :: c :: Base64Decode.b64decode (Base64.b64encode r).
Proof.
  cbn [Base64.b64encode Base64Decode.b64decode].
  pose proof (byte_bound a) as Ha. pose proof (byte_bound b) as Hb.
  pose proof (byte_bound c) as Hc.
  set (x := Byte.to_N a) in *. set (y := Byte.to_N b) in *. set (z := Byte.to_N c) in *.
  assert (x / 4 < 64)%N as H1 by (zify; Z.to_euclidean_division_equations; lia).
  assert (x mod 4 * 16 + y / 16 < 64)%N as H2
    by (zify; Z.to_euclidean_division_equations; lia).
  assert (y mod 16 * 4 + z / 64 < 64)%N as H3
    by (zify; Z.to_euclidean_division_equations; lia).
  assert (z mod 64 < 64)%N as H4 by (zify; Z.to_euclidean_division_equations; lia).
  destruct (sextet_spec _ H1) as [E1 _]. destruct (sextet_spec _ H2) as [E2 _].
  destruct (sextet_spec _ H3) as [E3 N3]. destruct (sextet_spec _ H4) as [E4 N4].
  unfold Base64Decode.decode4. rewrite E1, E2, E3, E4, N3, N4.
  assert (x / 4 * 4 + (x mod 4 * 16 + y / 16) / 16 = x)%N as ->
    by (zify; Z.to_euclidean_division_equations; lia).
  assert ((x mod 4 * 16 + y / 16) mod 16 * 16 + (y mod 16 * 4 + z / 64) / 4 = y)%N as ->
    by (zify; Z.to_euclidean_division_equations; lia).
  assert ((y mod 16 * 4 + z / 64) mod 4 * 64 + z mod 64 = z)%N as ->
    by (zify; Z.to_euclidean_division_equations; lia).
  unfold x, y, z. now rewrite !to_byte_to_N.
Qed.

Lemma decode_last_one a :
  Base64Decode.b64decode (Base64.b64encode [a]) = [a].
Proof.
  cbn [Base64.b64encode Base64Decode.b64decode].
  pose proof (byte_bound a) as Ha. set (x := Byte.to_N a) in *.
  assert (x / 4 < 64)%N as H1 by (zify; Z.to_euclidean_division_equations; lia).
  assert (x mod 4 * 16 < 64)%N as H2 by (zify; Z.to_euclidean_division_equations; lia).
  destruct (sextet_spec _ H1) as [E1 _]. destruct (sextet_spec _ H2) as [E2 _].
  unfold Base64Decode.decode4. rewrite E1, E2. cbn [Ascii.eqb Bool.eqb app].
  assert (x / 4 * 4 + x mod 4 * 16 / 16 = x)%N as ->
    by (zify; Z.to_euclidean_division_equations; lia).
  unfold x. now rewrite to_byte_to_N.
Qed.

Lemma decode_last_two a b :
  Base64Decode.b64decode (Base64.b64encode [a; b]) = [a; b].
Proof.
  cbn [Base64.b64encode Base64Decode.b64decode].
  pose proof (byte_bound a) as Ha. pose proof (byte_bound b) as Hb.
  set (x := Byte.to_N a) in *. set (y := Byte.to_N b) in *.
  assert (x / 4 < 64)%N as H1 by (zify; Z.to_euclidean_division_equations; lia).
  assert (x mod 4 * 16 + y / 16 < 64)%N as H2
    by (zify; Z.to_euclidean_division_equations; lia).
  assert (y mod 16 * 4 < 64)%N as H3 by (zify; Z.to_euclidean_division_equations; lia).
  destruct (sextet_spec _ H1) as [E1 _]. destruct (sextet_spec _ H2) as [E2 _].
  destruct (sextet_spec _ H3) as [E3 N3].
  unfold Base64Decode.decode4. rewrite E1, E2, E3, N3. cbn [Ascii.eqb Bool.eqb app].
  assert (x / 4 * 4 + (x mod 4 * 16 + y / 16) / 16 = x)%N as ->
    by (zify; Z.to_euclidean_division_equations; lia).
  assert ((x mod 4 * 16 + y / 16) mod 16 * 16 + y mod 16 * 4 / 4 = y)%N as ->
    by (zify; Z.to_euclidean_division_equations; lia).
  unfold x, y. now rewrite !to_byte_to_N.
Qed.

(** Induction on a list three elements at a time. *)
Lemma list_ind3 {A} (P : list A -> Prop) :
  P [] -> (forall a, P [a]) -> (forall a b, P [a; b]) ->
  (forall a b c r, P r -> P (a :: b :: c :: r)) ->
  forall l, P l.
Proof.
  intros H0 H1 H2 H3.
  assert (forall l, P l /\ (forall a, P (a :: l)) /\ (forall a b, P (a :: b :: l))) as H.
  { induction l as [| x l (IH0 & IH1 & IH2)]; [auto |].
    split; [apply IH1 |]. split; [intros a; apply IH2 |]. intros a b. now apply H3. }
  intros l. apply H.
Qed.

Lemma b64decode_b64encode l : Base64Decode.b64decode (Base64.b64encode l) = l.
Proof.
  induction l as [| a | a b | a b c r IH] using list_ind3.
  - reflexivity.
  - apply decode_last_one.
  - apply decode_last_two.
  - rewrite decode_chunk. now rewrite IH.
Qed.

Lemma b64encode_length l :
  String.length (Base64.b64encode l) = (4 * ((length l + 2) / 3))%nat.
Proof.
  induction l as [| a | a b | a b c r IH] using list_ind3; try reflexivity.
  cbn [Base64.b64encode String.length length]. rewrite IH.
  replace (S (S (S (length r))) + 2)%nat with (length r + 2 + 1 * 3)%nat by lia.
  rewrite Nat.div_add by lia. lia.
Qed.

(** X16: the audio field of a successful response is the padded base64
    text of the bytes the encoder returned for the trimmed waveform:
    decoding it gives back exactly those bytes, and its length is four
    characters for every three bytes, rounded up; two byte streams with the
    same text are equal. *)
Theorem response_audio_decodes_to_written_bytes env job c audio d rate :
  outcome (handler env job c) = inr (Success audio d rate) ->
  exists data buffer,
    In (EvWrite data rate) (trace (handler env job c))
    /\ sf_write env data rate = inr buffer
    /\ audio = Base64.b64encode buffer
    /\ Base64Decode.b64decode audio = buffer
    /\ String.length audio = (4 * ((length buffer + 2) / 3))%nat
    /\ (forall buffer', Base64.b64encode buffer' = audio -> buffer' = buffer).
Proof.
  intros H. destruct (handler_success_run env job c audio d rate H) as (i & Hi & Hl & Hrun).
  destruct (handler_run_valid env job i c Hi Hl) as (Ht & _).
  destruct (synthesize_job_success_run _ _ _ _ _ _ _ _ Hrun)
    as (m & s & row & rows & d' & ds & n & buffer & _ & _ & _ & _ & Hw & Hr & Htrace & _).
  injection Hr as -> -> ->.
  exists (slice_to n row), buffer.
  split.
  { rewrite Ht, Htrace. apply in_or_app. right. apply in_or_app. right. cbn. auto. }
  split; [exact Hw |]. split; [reflexivity |].
  split; [apply b64decode_b64encode |]. split; [apply b64encode_length |].
  intros buffer' Heq.
  rewrite <- (b64decode_b64encode buffer'), <- (b64decode_b64encode buffer).
  now rewrite Heq.
Qed.

Lemma response_audio_decodes_to_written_bytes_witness :
  let run := handler Stub.ready_env (Stub.job_of empty_input) initial_cache in
  outcome run = inr (Success (Base64.b64encode (repeat x00 93)) Stub.dur 24000)
  /\ Base64Decode.b64decode (Base64.b64encode (repeat x00 93)) = repeat x00 93
  /\ String.length (Base64.b64encode (repeat x00 93)) = 124%nat.
Proof.
  intros run.
  assert (outcome run = inr (Success (Base64.b64encode (repeat x00 93)) Stub.dur 24000))
    as H by (vm_compute; reflexivity).
  destruct (response_audio_decodes_to_written_bytes _ _ _ _ _ _ H)
    as (data & buffer & _ & _ & Haudio & Hdec & Hlen & Hinj).
  assert (buffer = repeat x00 93) as -> by (symmetry; apply Hinj; reflexivity).
  split; [exact H |]. split; [exact Hdec |]. rewrite Hlen. reflexivity.
Defined.
